(** * ExperimentalDataReader: the DataReader class, embedded in Rocq

    The reader owns one table, [self.data].  A pandas DataFrame is modelled
    as the list of its rows, each row a record of the thirteen columns the
    constructor declares; the row labels are the positions 0..n-1 (the
    RangeIndex every table built by this class carries).  Numeric cells are
    IEEE binary64 numbers (Rocq's primitive floats), a missing numeric cell
    is NaN exactly as in pandas, a missing timestamp (NaT) or missing text
    is [None].  A method is a function from the reader to an outcome
    (normal return or a raised exception) and the reader after the call.
    What a method reads from a file is an argument of its model: the outcome
    of the read, a value or the exception the read raised.  Saving and
    loading run against a file system that maps a path to the fields of a
    text file or to the datasets of an HDF5 store. *)

From Stdlib Require Import List ZArith Lia Bool String Ascii.
From Stdlib Require Import Permutation Sorted.
From Stdlib Require Import Floats.
Import ListNotations.

Local Open Scope Z_scope.

(* Decimal literals denote the nearest binary64 number, as in Python. *)
Set Warnings "-inexact-float".

(** ** Exceptions and the method monad *)

Inductive exn : Type :=
| ValueError (msg : string)
| OtherException (name msg : string). (* any other exception class *)

Inductive outcome (A : Type) : Type :=
| Return (a : A)
| Raise (e : exn).

Arguments Return {A} a.
Arguments Raise {A} e.

Definition obind {A B : Type} (m : outcome A) (k : A -> outcome B) : outcome B :=
  match m with
  | Return a => k a
  | Raise e => Raise e
  end.

Declare Scope py_scope.
Delimit Scope py_scope with py.
Notation "x <- m ;; k" := (obind m (fun x => k))
  (at level 100, m at next level, right associativity) : py_scope.

Fixpoint mapM {A B : Type} (f : A -> outcome B) (l : list A) : outcome (list B) :=
  match l with
  | [] => Return []
  | a :: l' =>
      (b <- f a ;;
       bs <- mapM f l' ;;
       Return (b :: bs))%py
  end.

(** ** Values handed to the setters

    The setters document their argument as a float whose default is the
    object [np.nan].  Python's [x in list] compares by identity first and
    by [==] second, so the one NaN that a list containing [np.nan] accepts
    is [np.nan] itself; any other float object, NaN or not, goes through
    [==]. *)

Inductive pyfloat : Type :=
| np_nan
| pyval (f : float).

Definition float_of (x : pyfloat) : float :=
  match x with
  | np_nan => nan
  | pyval f => f
  end.

Definition py_is (x y : pyfloat) : bool :=
  match x, y with
  | np_nan, np_nan => true
  | _, _ => false
  end.

Definition py_eq (x y : pyfloat) : bool :=
  PrimFloat.eqb (float_of x) (float_of y).

(** [x in l] *)
Definition py_in (x : pyfloat) (l : list pyfloat) : bool :=
  existsb (fun a => py_is x a || py_eq x a) l.

(** A literal of an [allowed_values] list together with the text [str]
    gives for it. *)
Record literal : Type := Lit { lit_str : string; lit_val : pyfloat }.

Definition int_lit (s : string) (f : float) : literal := Lit s (pyval f).

(** ** The table *)

Record row : Type := Row {
  time : option Z;              (* seconds; None is NaT *)
  frequency_hz : float;
  dlts_v : float;
  temperature_k : float;
  dlts_pf : float;
  bs : float;
  ls : float;
  f_pulse : float;
  u1 : float;
  ur : float;
  time_between_meas : float;
  integral_time : float;
  specimen_name : option string (* None is NaN *)
}.

Record DataReader : Type := Reader { data : list row }.

(** [DataReader()]: the table with the thirteen columns and no row. *)
Definition init : DataReader := Reader [].

Definition M (A : Type) : Type := DataReader -> outcome A * DataReader.

(** Assigning a scalar to a column writes it to every row. *)
Definition set_column (upd : row -> row) (self : DataReader) : DataReader :=
  Reader (map upd (data self)).

Definition with_specimen_name (v : option string) (r : row) : row :=
  Row (time r) (frequency_hz r) (dlts_v r) (temperature_k r) (dlts_pf r)
      (bs r) (ls r) (f_pulse r) (u1 r) (ur r) (time_between_meas r)
      (integral_time r) v.

Definition with_bs (v : float) (r : row) : row :=
  Row (time r) (frequency_hz r) (dlts_v r) (temperature_k r) (dlts_pf r)
      v (ls r) (f_pulse r) (u1 r) (ur r) (time_between_meas r)
      (integral_time r) (specimen_name r).

Definition with_ls (v : float) (r : row) : row :=
  Row (time r) (frequency_hz r) (dlts_v r) (temperature_k r) (dlts_pf r)
      (bs r) v (f_pulse r) (u1 r) (ur r) (time_between_meas r)
      (integral_time r) (specimen_name r).

Definition with_f_pulse (v : float) (r : row) : row :=
  Row (time r) (frequency_hz r) (dlts_v r) (temperature_k r) (dlts_pf r)
      (bs r) (ls r) v (u1 r) (ur r) (time_between_meas r)
      (integral_time r) (specimen_name r).

Definition with_u1 (v : float) (r : row) : row :=
  Row (time r) (frequency_hz r) (dlts_v r) (temperature_k r) (dlts_pf r)
      (bs r) (ls r) (f_pulse r) v (ur r) (time_between_meas r)
      (integral_time r) (specimen_name r).

Definition with_ur (v : float) (r : row) : row :=
  Row (time r) (frequency_hz r) (dlts_v r) (temperature_k r) (dlts_pf r)
      (bs r) (ls r) (f_pulse r) (u1 r) v (time_between_meas r)
      (integral_time r) (specimen_name r).

Definition with_time_between_meas (v : float) (r : row) : row :=
  Row (time r) (frequency_hz r) (dlts_v r) (temperature_k r) (dlts_pf r)
      (bs r) (ls r) (f_pulse r) (u1 r) (ur r) v
      (integral_time r) (specimen_name r).

Definition with_integral_time (v : float) (r : row) : row :=
  Row (time r) (frequency_hz r) (dlts_v r) (temperature_k r) (dlts_pf r)
      (bs r) (ls r) (f_pulse r) (u1 r) (ur r) (time_between_meas r)
      v (specimen_name r).

Definition with_dlts_pf (v : float) (r : row) : row :=
  Row (time r) (frequency_hz r) (dlts_v r) (temperature_k r) v
      (bs r) (ls r) (f_pulse r) (u1 r) (ur r) (time_between_meas r)
      (integral_time r) (specimen_name r).

(** ** The setters *)

(** [', '.join(str(_) for _ in allowed_values[:-1])] *)
Definition join_allowed (allowed_values : list literal) : string :=
  String.concat ", " (map lit_str (removelast allowed_values)).

Definition nan_lit : literal := Lit "nan" np_nan.

Definition set_specimen_name (name : string) : M unit :=
  fun self => (Return tt, set_column (with_specimen_name (Some name)) self).

Definition bs_allowed_values : list literal :=
  [int_lit "1" 1; int_lit "10" 10; int_lit "100" 100; int_lit "1000" 1000;
   nan_lit].

Definition set_bs (v : pyfloat) : M unit :=
  fun self =>
    let allowed_values := bs_allowed_values in
    let error_message :=
      ("bs value must be " ++ join_allowed allowed_values ++ " or NaN")%string in
    if py_in v (map lit_val allowed_values)
    then (Return tt, set_column (with_bs (float_of v)) self)
    else (Raise (ValueError error_message), self).

Definition ls_allowed_values : list literal :=
  [int_lit "1" 1; int_lit "2" 2; int_lit "5" 5; int_lit "10" 10;
   int_lit "20" 20; int_lit "50" 50; int_lit "100" 100; int_lit "200" 200;
   int_lit "500" 500; int_lit "1000" 1000; nan_lit].

Definition set_ls (v : pyfloat) : M unit :=
  fun self =>
    let allowed_values := ls_allowed_values in
    let error_message :=
      ("ls value must be " ++ join_allowed allowed_values ++ " or NaN")%string in
    if py_in v (map lit_val allowed_values)
    then (Return tt, set_column (with_ls (float_of v)) self)
    else (Raise (ValueError error_message), self).

Definition set_f_pulse (v : pyfloat) : M unit :=
  fun self => (Return tt, set_column (with_f_pulse (float_of v)) self).

Definition set_u1 (v : pyfloat) : M unit :=
  fun self => (Return tt, set_column (with_u1 (float_of v)) self).

Definition set_ur (v : pyfloat) : M unit :=
  fun self => (Return tt, set_column (with_ur (float_of v)) self).

Definition set_time_between_meas (v : pyfloat) : M unit :=
  fun self => (Return tt, set_column (with_time_between_meas (float_of v)) self).

Definition integral_time_allowed_values : list literal :=
  [Lit "0.3" (pyval 0.3); int_lit "1" 1; int_lit "3" 3; int_lit "10" 10;
   int_lit "30" 30; nan_lit].

Definition set_integral_time (v : pyfloat) : M unit :=
  fun self =>
    let allowed_values := integral_time_allowed_values in
    let error_mesage :=
      ("time value must be " ++ join_allowed allowed_values ++ " or NaN")%string in
    if py_in v (map lit_val allowed_values)
    then (Return tt, set_column (with_integral_time (float_of v)) self)
    else (Raise (ValueError error_mesage), self).

(** [self.data.dlts_pf = self.data.dlts_v / ((10 / self.data.bs)*(10000 / self.data.ls))],
    element by element. *)
Definition pf_of (r : row) : float :=
  (dlts_v r / ((10 / bs r) * (10000 / ls r)))%float.

Definition compute_dlts_pf : M unit :=
  fun self =>
    (Return tt, Reader (map (fun r => with_dlts_pf (pf_of r) r) (data self))).

(** ** The two streams

    [pd.read_csv] hands over the signal stream (columns time,
    frequency_hz, dlts_v) and the temperature stream (columns time,
    temperature_k).  The time column holds the time-of-day text first and
    the parsed timestamp, in whole seconds, after [pd.to_datetime]; the
    records are therefore indexed by the type of that column. *)

Record dlts_row (T : Type) : Type := DltsRow {
  d_time : T;
  d_frequency_hz : float;
  d_dlts_v : float
}.
Arguments DltsRow {T} _ _ _.
Arguments d_time {T} _.
Arguments d_frequency_hz {T} _.
Arguments d_dlts_v {T} _.

Record temp_row (T : Type) : Type := TempRow {
  t_time : T;
  t_temperature_k : float
}.
Arguments TempRow {T} _ _.
Arguments t_time {T} _.
Arguments t_temperature_k {T} _.

(** A row of [dlts_data.merge(...)]. *)
Record merged_row : Type := Merged {
  m_time : Z;
  m_frequency_hz : float;
  m_dlts_v : float;
  m_temperature_k : float
}.

Definition signal_of (m : merged_row) : dlts_row Z :=
  DltsRow (m_time m) (m_frequency_hz m) (m_dlts_v m).

(** ** Date reconstruction: [re.findall('\d\d\.\d\d\.\d\d\d\d', f.read())] *)

(** The text is a string of the characters 0 to 255; among these [\d]
    matches the ten digits 0 to 9 and nothing else. *)
Definition is_digit (c : ascii) : bool :=
  ((48 <=? nat_of_ascii c) && (nat_of_ascii c <=? 57))%nat.

Definition is_dot (c : ascii) : bool := Ascii.eqb c ".".

(** The pattern, one character class per position. *)
Definition date_pattern : list (ascii -> bool) :=
  [is_digit; is_digit; is_dot; is_digit; is_digit; is_dot;
   is_digit; is_digit; is_digit; is_digit].

(** The text the pattern matches at the start of [s], if it matches. *)
Fixpoint match_here (p : list (ascii -> bool)) (s : string) : option string :=
  match p with
  | [] => Some EmptyString
  | cls :: p' =>
      match s with
      | EmptyString => None
      | String a s' =>
          if cls a then option_map (String a) (match_here p' s') else None
      end
  end.

(** All non-overlapping matches, scanning left to right; [skip] counts the
    characters of the last match that are still to be stepped over. *)
Fixpoint findall_from (p : list (ascii -> bool)) (skip : nat) (s : string)
  : list string :=
  match s with
  | EmptyString => []
  | String _ s' =>
      match skip with
      | S k => findall_from p k s'
      | O =>
          match match_here p s with
          | Some m => m :: findall_from p (Nat.pred (String.length m)) s'
          | None => findall_from p 0 s'
          end
      end
  end.

Definition re_findall (s : string) : list string :=
  findall_from date_pattern 0 s.

(** [series + list] on a column of text: the list becomes an array and
    numpy broadcasts the two shapes.  Equal lengths add cell by cell, a list
    of one element is added to every cell; a column of one cell against a
    longer (or empty) list gives an array that no longer fits the column's
    index, and any other pair of lengths does not broadcast. *)
Definition series_add_list (col : list string) (l : list string)
  : outcome (list string) :=
  if (List.length col =? List.length l)%nat then
    Return (map (fun '(c, d) => (c ++ d)%string) (combine col l))
  else
    match l with
    | [d] => Return (map (fun c => (c ++ d)%string) col)
    | _ =>
        match col with
        | [_] => Raise (ValueError "Length of values does not match length of index")
        | _ => Raise (ValueError "operands could not be broadcast together")
        end
    end.

(** ** Resampling: [temperature_data.resample('S').ffill()] *)

(** The resampler first orders the frame by its index (a stable sort). *)
Fixpoint insert_by_time (x : temp_row Z) (l : list (temp_row Z)) : list (temp_row Z) :=
  match l with
  | [] => [x]
  | y :: l' =>
      if t_time x <=? t_time y then x :: l else y :: insert_by_time x l'
  end.

Fixpoint sort_by_time (l : list (temp_row Z)) : list (temp_row Z) :=
  match l with
  | [] => []
  | x :: l' => insert_by_time x (sort_by_time l')
  end.

(** The new index: every second from [first], [n] of them. *)
Fixpoint seconds_from (first : Z) (n : nat) : list Z :=
  match n with
  | O => []
  | S k => first :: seconds_from (first + 1) k
  end.

Definition date_range (first last : Z) : list Z :=
  seconds_from first (Z.to_nat (last - first + 1)).

(** [Index.is_unique] *)
Fixpoint is_unique (l : list Z) : bool :=
  match l with
  | [] => true
  | x :: l' => negb (existsb (Z.eqb x) l') && is_unique l'
  end.

(** [get_indexer(target, method='pad')] on the ordered frame: the value of
    the last row whose label is at or before [g]. *)
Fixpoint pad (obj : list (temp_row Z)) (g : Z) : option float :=
  match obj with
  | [] => None
  | a :: rest =>
      if t_time a <=? g then
        match pad rest g with
        | Some w => Some w
        | None => Some (t_temperature_k a)
        end
      else None
  end.

(** A label with no row at or before it gets a missing value. *)
Definition value_or_nan (o : option float) : float :=
  match o with
  | Some v => v
  | None => nan
  end.

Definition reindex_ffill (obj : list (temp_row Z)) (res_index : list Z)
  : outcome (list (temp_row Z)) :=
  if is_unique (map t_time obj) then
    Return (map (fun g => TempRow g (value_or_nan (pad obj g))) res_index)
  else Raise (ValueError "cannot reindex on an axis with duplicate labels").

(** A frame without rows resamples to a frame without rows (whose index
    is doubled, see [time_levels] below); otherwise the frame is reindexed
    on every second from its first to its last label. *)
Definition resample_S_ffill (temperature_data : list (temp_row Z))
  : outcome (list (temp_row Z)) :=
  let obj := sort_by_time temperature_data in
  match obj with
  | [] => Return []
  | a :: _ =>
      let first := t_time a in
      let last := t_time (List.last obj a) in
      reindex_ffill obj (date_range first last)
  end.

(** ** The join: [dlts_data.merge(right=temperature_data, how='left', on='time')]

    Every left row, in left order, once per right row with the same key,
    and once with a missing temperature when no right row has it. *)
Definition merge_left (dlts_data : list (dlts_row Z)) (right : list (temp_row Z))
  : list merged_row :=
  flat_map
    (fun d =>
       match filter (fun g => t_time g =? d_time d) right with
       | [] => [Merged (d_time d) (d_frequency_hz d) (d_dlts_v d) nan]
       | matches =>
           map (fun g => Merged (d_time d) (d_frequency_hz d) (d_dlts_v d)
                                (t_temperature_k g)) matches
       end)
    dlts_data.

(** The number of index levels named time of a resampled frame.  A frame
    with rows has the one the resampler built; to a resampled frame without
    rows the resampler appends the (empty) index of its input as a second
    level, so that two levels carry the name. *)
Definition time_levels (resampled : list (temp_row Z)) : nat :=
  match resampled with
  | [] => 2
  | _ :: _ => 1
  end.

(** [merge(..., on='time')] looks the key up among the index levels of the
    right frame by name, and refuses a name that two levels carry. *)
Definition merge (dlts_data : list (dlts_row Z)) (right : list (temp_row Z))
  : outcome (list merged_row) :=
  if (time_levels right =? 1)%nat then Return (merge_left dlts_data right)
  else Raise (ValueError "The name time occurs multiple times, use a level number").

(** Lines 144-148 up to the assignment: resample, forward-fill, join. *)
Definition time_alignment_merge (dlts_data : list (dlts_row Z))
    (temperature_data : list (temp_row Z)) : outcome (list merged_row) :=
  (grid <- resample_S_ffill temperature_data ;;
   merge dlts_data grid)%py.

(** ** The assignment [self.data[column_list] = ...]

    Each of the four columns is assigned as a Series, which pandas aligns
    on the row labels of [self.data]: a table that has no row yet takes over
    the labels of the assigned frame (its other columns are filled with
    missing values); a table that has rows keeps them, takes the values
    found at its own labels and a missing value where there is none. *)

Definition nan_row : row :=
  Row None nan nan nan nan nan nan nan nan nan nan nan None.

Definition put_merged (m : option merged_row) (r : row) : row :=
  match m with
  | Some m =>
      Row (Some (m_time m)) (m_frequency_hz m) (m_dlts_v m) (m_temperature_k m)
          (dlts_pf r) (bs r) (ls r) (f_pulse r) (u1 r) (ur r)
          (time_between_meas r) (integral_time r) (specimen_name r)
  | None =>
      Row None nan nan nan
          (dlts_pf r) (bs r) (ls r) (f_pulse r) (u1 r) (ur r)
          (time_between_meas r) (integral_time r) (specimen_name r)
  end.

Definition setitem_columns (merged : list merged_row) (rows : list row) : list row :=
  match rows with
  | [] => map (fun m => put_merged (Some m) nan_row) merged
  | _ =>
      map (fun '(i, r) => put_merged (nth_error merged i) r)
          (combine (seq 0 (List.length rows)) rows)
  end.

(** ** read_from_d_t *)

Section ReadFromDT.

(** [pd.to_datetime(cell, format='%H:%M:%S %d.%m.%Y')] for one cell, in
    seconds; [None] when the text does not parse, which raises. *)
Variable to_datetime : string -> option Z.

Definition to_datetime_series (col : list string) : outcome (list Z) :=
  mapM (fun s =>
          match to_datetime s with
          | Some t => Return t
          | None => Raise (ValueError "time data does not match format")
          end) col.

(** The timestamps of a time-of-day column: [col + ' ' + date_str], parsed. *)
Definition timestamps (col : list string) (date_str : list string)
  : outcome (list Z) :=
  (texts <- series_add_list (map (fun c => (c ++ " ")%string) col) date_str ;;
   to_datetime_series texts)%py.

Definition with_times {A B : Type} (mk : A -> Z -> B) (rows : list A)
    (times : list Z) : list B :=
  map (fun '(r, t) => mk r t) (combine rows times).

(** The method reads three times before it computes: [dlts_read] is what
    [pd.read_csv(d_file_name, ...)] gives, [temperature_read] what
    [pd.read_csv(t_file_name, ...)] gives, and [d_file_read] what
    [open(d_file_name, 'r')] and [f.read()] give, each the value returned or
    the exception raised (a missing file, a line that does not parse, bytes
    that do not decode in the encoding in force).  An exception of a read
    ends the call there. *)
Definition read_from_d_t (dlts_read : outcome (list (dlts_row string)))
    (temperature_read : outcome (list (temp_row string)))
    (d_file_read : outcome string) : M unit :=
  fun self =>
    let merged :=
      (dlts_data <- dlts_read ;;
       temperature_data <- temperature_read ;;
       d_file <- d_file_read ;;
       let date_str := re_findall d_file in
       dtimes <- timestamps (map d_time dlts_data) date_str ;;
       let dlts_data :=
         with_times (fun r t => DltsRow t (d_frequency_hz r) (d_dlts_v r))
                    dlts_data dtimes in
       ttimes <- timestamps (map t_time temperature_data) date_str ;;
       let temperature_data :=
         with_times (fun r t => TempRow t (t_temperature_k r))
                    temperature_data ttimes in
       time_alignment_merge dlts_data temperature_data)%py in
    match merged with
    | Return merged =>
        (Return tt, Reader (setitem_columns merged (data self)))
    | Raise e => (Raise e, self)
    end.

End ReadFromDT.

(** ** Saving and loading

    What is saved and what is loaded is a frame: named columns of cells, a
    cell being a timestamp, a number, a truth value or a text.  The table of
    the reader is the frame of its rows; a loaded frame is assigned to
    [self.data] as it is. *)

Inductive cell : Type :=
| Timestamp (t : Z)
| NaT
| Float (f : float)
| Bool (b : bool)
| Str (s : string).

Record column : Type := Column { col_name : string; col_cells : list cell }.

Definition frame : Type := list column.

Definition time_cell (o : option Z) : cell :=
  match o with
  | Some t => Timestamp t
  | None => NaT
  end.

Definition text_cell (o : option string) : cell :=
  match o with
  | Some s => Str s
  | None => Float nan
  end.

Definition frame_of (rows : list row) : frame :=
  [Column "time" (map (fun r => time_cell (time r)) rows);
   Column "frequency_hz" (map (fun r => Float (frequency_hz r)) rows);
   Column "dlts_v" (map (fun r => Float (dlts_v r)) rows);
   Column "temperature_k" (map (fun r => Float (temperature_k r)) rows);
   Column "dlts_pf" (map (fun r => Float (dlts_pf r)) rows);
   Column "bs" (map (fun r => Float (bs r)) rows);
   Column "ls" (map (fun r => Float (ls r)) rows);
   Column "f_pulse" (map (fun r => Float (f_pulse r)) rows);
   Column "u1" (map (fun r => Float (u1 r)) rows);
   Column "ur" (map (fun r => Float (ur r)) rows);
   Column "time_between_meas" (map (fun r => Float (time_between_meas r)) rows);
   Column "integral_time" (map (fun r => Float (integral_time r)) rows);
   Column "specimen_name" (map (fun r => text_cell (specimen_name r)) rows)].

(** A file is a text of delimited fields, kept as its columns (the header
    field and the fields below it, in row order), or an HDF5 store, kept as
    its datasets by node path.  A file system says what each path holds and
    which paths can be written. *)
Definition csv : Type := list (string * list string).

Inductive file : Type :=
| CsvFile (content : csv)
| HdfFile (datasets : list (string * frame)).

Record file_system : Type := FS {
  files : string -> option file;
  can_write : string -> bool
}.

Definition write (fs : file_system) (path : string) (f : file) : file_system :=
  FS (fun q => if String.eqb q path then Some f else files fs q) (can_write fs).

(** *** The text of a cell *)

Definition digit (n : Z) : ascii := ascii_of_nat (48 + Z.to_nat (n mod 10)).

Definition two (n : Z) : string :=
  String (digit (n / 10)) (String (digit n) EmptyString).

Definition four (n : Z) : string :=
  String (digit (n / 1000)) (String (digit (n / 100)) (two n)).

(** Year, month and day of a day number counted from 1970-01-01. *)
Definition civil_from_days (z : Z) : Z * Z * Z :=
  let z := z + 719468 in
  let era := z / 146097 in
  let doe := z - era * 146097 in
  let yoe := (doe - doe / 1460 + doe / 36524 - doe / 146096) / 365 in
  let y := yoe + era * 400 in
  let doy := doe - (365 * yoe + yoe / 4 - yoe / 100) in
  let mp := (5 * doy + 2) / 153 in
  let d := doy - (153 * mp + 2) / 5 + 1 in
  let m := if mp <? 10 then mp + 3 else mp - 9 in
  (if m <=? 2 then y + 1 else y, m, d).

Definition format_date (t : Z) : string :=
  let '(y, m, d) := civil_from_days (t / 86400) in
  String (digit (y / 1000)) (String (digit (y / 100)) (String (digit (y / 10))
    (String (digit y) ("-" ++ two m ++ "-" ++ two d)))).

Definition format_time (t : Z) : string :=
  let s := t mod 86400 in
  (two (s / 3600) ++ ":" ++ two (s mod 3600 / 60) ++ ":" ++ two (s mod 60))%string.

(** Timestamps that all fall on midnight are written as dates. *)
Definition dates_only (cells : list cell) : bool :=
  forallb (fun c => match c with
                    | Timestamp t => t mod 86400 =? 0
                    | _ => true
                    end) cells.

(** The rows are written in chunks of [100000 // number of columns] rows,
    each chunk formatted on its own. *)
Definition chunksize (columns : nat) : nat :=
  Z.to_nat (Z.max 1 (100000 / Z.max 1 (Z.of_nat columns))).

Fixpoint chunks {A : Type} (fuel size : nat) (l : list A) : list (list A) :=
  match fuel with
  | O => []
  | S fuel' =>
      match l with
      | [] => []
      | _ => firstn size l :: chunks fuel' size (skipn size l)
      end
  end.

Definition format_timestamp (date_only : bool) (t : Z) : string :=
  if date_only then format_date t
  else (format_date t ++ " " ++ format_time t)%string.

(** *** Reading fields back *)

(** The texts read_csv takes for a missing value. *)
Definition na_values : list string :=
  [""; "#N/A"; "#N/A N/A"; "#NA"; "-1.#IND"; "-1.#QNAN"; "-NaN"; "-nan";
   "1.#IND"; "1.#QNAN"; "<NA>"; "N/A"; "NA"; "NULL"; "NaN"; "None"; "n/a";
   "nan"; "null"]%string.

Definition is_na (s : string) : bool := existsb (String.eqb s) na_values.

Definition parse_bool (s : string) : option bool :=
  if existsb (String.eqb s) ["True"; "TRUE"; "true"]%string then Some true
  else if existsb (String.eqb s) ["False"; "FALSE"; "false"]%string then Some false
  else None.

(** A digit directly followed by a minus sign: no numeral has it, every
    written timestamp has it after its year. *)
Fixpoint digit_then_minus (s : string) : bool :=
  match s with
  | EmptyString => false
  | String a s' =>
      match s' with
      | String b _ => (is_digit a && Ascii.eqb b "-") || digit_then_minus s'
      | EmptyString => false
      end
  end.

Definition is_some {A : Type} (o : option A) : bool :=
  match o with
  | Some _ => true
  | None => false
  end.

Section SaveLoad.

(** The text to_csv writes for a number that is not NaN in the column of a
    given name (the column is of integers, of floats or of objects, which
    the table of numbers does not tell); the number read_csv reads in a
    field, if it reads one; and the text that the UTF-8 bytes of a text give
    when decoded in an encoding. *)
Variable float_repr : string -> float -> string.
Variable parse_number : string -> option float.
Variable recode : string -> string -> outcome string.

Definition format_cell (name : string) (date_only : bool) (c : cell) : string :=
  match c with
  | Timestamp t => format_timestamp date_only t
  | NaT => EmptyString
  | Float f => if is_nan f then EmptyString else float_repr name f
  | Bool b => if b then "True"%string else "False"%string
  | Str s => s
  end.

(** The fields of a column: chunk by chunk, the text of every cell. *)
Definition format_column (name : string) (size : nat) (cells : list cell)
  : list string :=
  flat_map (fun chunk => map (format_cell name (dates_only chunk)) chunk)
           (chunks (List.length cells) size cells).

(** [DataFrame.to_csv(fname, index=False)]: the header and, per column, the
    text of every cell. *)
Definition csv_of (fr : frame) : csv :=
  map (fun c => (col_name c,
                 format_column (col_name c) (chunksize (List.length fr))
                               (col_cells c)))
      fr.

(** The type read_csv gives a column: numbers if every field that is not
    missing reads as a number, truth values if every field is one, text
    otherwise; a missing field is NaN in each case. *)
Definition infer (fields : list string) : list cell :=
  let present := filter (fun s => negb (is_na s)) fields in
  if forallb (fun s => is_some (parse_number s)) present then
    map (fun s => if is_na s then Float nan
                  else match parse_number s with
                       | Some f => Float f
                       | None => Float nan
                       end) fields
  else if forallb (fun s => is_some (parse_bool s)) fields then
    map (fun s => if is_na s then Float nan
                  else match parse_bool s with
                       | Some b => Bool b
                       | None => Str s
                       end) fields
  else map (fun s => if is_na s then Float nan else Str s) fields.

(** The frame that the fields of a written frame are read as. *)
Definition reread (fr : frame) : frame :=
  map (fun c =>
         Column (col_name c)
                (infer (format_column (col_name c) (chunksize (List.length fr))
                                      (col_cells c))))
      fr.

Definition read_column (encoding : string) (col : string * list string)
  : outcome column :=
  (name <- recode encoding (fst col) ;;
   texts <- mapM (recode encoding) (snd col) ;;
   Return (Column name (infer texts)))%py.

Definition pd_read_csv (encoding : string) (fname : string) (fs : file_system)
  : outcome frame :=
  match files fs fname with
  | None => Raise (OtherException "FileNotFoundError" fname)
  | Some (HdfFile _) => Raise (OtherException "UnicodeDecodeError" fname)
  | Some (CsvFile []) =>
      Raise (OtherException "EmptyDataError" "No columns to parse from file")
  | Some (CsvFile content) => mapM (read_column encoding) content
  end.

(** [self.data = pd.read_csv(fname)] or
    [self.data = pd.read_csv(fname, encoding=encoding)]: the frame assigned
    to [self.data], or the exception, which leaves the table as it was. *)
Definition read_from_csv (fname : string) (encoding : option string)
    (fs : file_system) : outcome frame :=
  match encoding with
  | None => pd_read_csv "utf-8" fname fs
  | Some encoding => pd_read_csv encoding fname fs
  end.

(** [self.data.to_csv(fname, index=False)] *)
Definition to_csv (fname : string) (self : DataReader) (fs : file_system)
  : outcome unit * file_system :=
  if can_write fs fname
  then (Return tt, write fs fname (CsvFile (csv_of (frame_of (data self)))))
  else (Raise (OtherException "OSError" fname), fs).

End SaveLoad.

(** The node a key names in a store. *)
Definition node (key : string) : string :=
  match key with
  | String "/" _ => key
  | _ => ("/" ++ key)%string
  end.

Fixpoint lookup (k : string) (datasets : list (string * frame)) : option frame :=
  match datasets with
  | [] => None
  | (k', fr) :: rest => if String.eqb k' k then Some fr else lookup k rest
  end.

(** A dataset put under a node replaces the one that was there. *)
Definition put (k : string) (fr : frame) (datasets : list (string * frame))
  : list (string * frame) :=
  (k, fr) :: filter (fun '(k', _) => negb (String.eqb k' k)) datasets.

(** [self.data.to_hdf(fname, key)]: the file is opened for appending, so a
    new file is created and an existing store keeps its other datasets. *)
Definition to_hdf (fname : string) (key : string) (self : DataReader)
    (fs : file_system) : outcome unit * file_system :=
  if can_write fs fname then
    match files fs fname with
    | None =>
        (Return tt, write fs fname (HdfFile [(node key, frame_of (data self))]))
    | Some (HdfFile datasets) =>
        (Return tt,
         write fs fname (HdfFile (put (node key) (frame_of (data self)) datasets)))
    | Some (CsvFile _) => (Raise (OtherException "HDF5ExtError" fname), fs)
    end
  else (Raise (OtherException "OSError" fname), fs).

(** [pd.read_hdf(fname)] and [pd.read_hdf(fname, key)] *)
Definition pd_read_hdf (fname : string) (key : option string)
    (fs : file_system) : outcome frame :=
  match files fs fname with
  | None => Raise (OtherException "FileNotFoundError" fname)
  | Some (CsvFile _) => Raise (OtherException "HDF5ExtError" fname)
  | Some (HdfFile datasets) =>
      match key with
      | None =>
          match datasets with
          | [] => Raise (ValueError "Dataset(s) incompatible with Pandas data types, not table, or no datasets found in HDF5 file.")
          | [(_, fr)] => Return fr
          | _ => Raise (ValueError "key must be provided when HDF5 file contains multiple datasets.")
          end
      | Some k =>
          match lookup (node k) datasets with
          | Some fr => Return fr
          | None => Raise (OtherException "KeyError" k)
          end
      end
  end.

Definition read_from_hdf (fname : string) (key : option string)
    (fs : file_system) : outcome frame :=
  match key with
  | None => pd_read_hdf fname None fs
  | Some key => pd_read_hdf fname (Some key) fs
  end.

(** A saved cell that holds no value. *)
Definition missing (c : cell) : bool :=
  match c with
  | NaT => true
  | Float f => is_nan f
  | _ => false
  end.

(** A key that names a node directly under the root of a store. *)
Fixpoint no_slash (s : string) : bool :=
  match s with
  | EmptyString => true
  | String a s' => negb (Ascii.eqb a "/") && no_slash s'
  end.

Definition flat_key (key : string) : bool :=
  negb (String.eqb key EmptyString) && no_slash key.

(** ** Vocabulary of the statements *)

(** A number belongs to an allowed set [{x1, ..., xn, NaN}] when it is NaN or
    equal to one of the [xi]. *)
Definition in_value_set (set : list float) (x : float) : bool :=
  is_nan x || existsb (PrimFloat.eqb x) set.

(** Order of two temperature rows by timestamp. *)
Definition time_le (a b : temp_row Z) : Prop := t_time a <= t_time b.

(** The row the join produces for signal row [d] when the grid runs over the
    [n] seconds from [first] and holds [f g] at second [g]. *)
Definition joined (f : Z -> float) (first : Z) (n : nat) (d : dlts_row Z)
  : merged_row :=
  Merged (d_time d) (d_frequency_hz d) (d_dlts_v d)
         (if (first <=? d_time d) && (d_time d <? first + Z.of_nat n)
          then f (d_time d) else nan).

(** The value forward fill puts at the grid seconds. *)
Definition filled (temp : list (temp_row Z)) (g : Z) : float :=
  value_or_nan (pad (sort_by_time temp) g).

(** [a] is the most recent observation of [temp] at or before [t]. *)
Definition latest_at_or_before (temp : list (temp_row Z)) (t : Z)
    (a : temp_row Z) : Prop :=
  In a temp /\ t_time a <= t /\
  forall a', In a' temp -> t_time a' <= t -> t_time a' <= t_time a.

(** A time of day on 01.01.2024, in seconds since 1970. *)
Definition on_2024_01_01 (h m s : Z) : Z :=
  1704067200 + 3600 * h + 60 * m + s.

(** ** The reader as a state machine *)

Inductive call : Type :=
| call_read_from_d_t (to_datetime : string -> option Z)
    (dlts_read : outcome (list (dlts_row string)))
    (temperature_read : outcome (list (temp_row string)))
    (d_file_read : outcome string)
| call_set_specimen_name (specimen_name : string)
| call_set_bs (v : pyfloat)
| call_set_ls (v : pyfloat)
| call_set_f_pulse (v : pyfloat)
| call_set_u1 (v : pyfloat)
| call_set_ur (v : pyfloat)
| call_set_time_between_meas (v : pyfloat)
| call_set_integral_time (v : pyfloat)
| call_compute_dlts_pf.

Definition run (c : call) : M unit :=
  match c with
  | call_read_from_d_t to_datetime dlts_read temperature_read d_file_read =>
      read_from_d_t to_datetime dlts_read temperature_read d_file_read
  | call_set_specimen_name name => set_specimen_name name
  | call_set_bs v => set_bs v
  | call_set_ls v => set_ls v
  | call_set_f_pulse v => set_f_pulse v
  | call_set_u1 v => set_u1 v
  | call_set_ur v => set_ur v
  | call_set_time_between_meas v => set_time_between_meas v
  | call_set_integral_time v => set_integral_time v
  | call_compute_dlts_pf => compute_dlts_pf
  end.

(** The readers a program can hold: created empty, then any calls, whether
    they return or raise. *)
Inductive reachable : DataReader -> Prop :=
| reachable_init : reachable init
| reachable_call (c : call) (self : DataReader) :
    reachable self -> reachable (snd (run c self)).

(** A column holds one value across the table. *)
Definition uniform {A : Type} (col : row -> A) (rows : list row) : Prop :=
  forall r r', In r rows -> In r' rows -> col r = col r'.

Definition calibration_uniform (rows : list row) : Prop :=
  uniform bs rows /\ uniform ls rows /\ uniform f_pulse rows /\
  uniform u1 rows /\ uniform ur rows /\ uniform time_between_meas rows /\
  uniform integral_time rows /\ uniform specimen_name rows.

(** [d] is a text the date pattern matches in full. *)
Definition is_date (d : string) : Prop := match_here date_pattern d = Some d.

(** [d] is the leftmost substring of [s] that is a date. *)
Definition first_date (s d : string) : Prop :=
  exists pre post,
    s = (pre ++ d ++ post)%string /\ is_date d /\
    forall pre' d' post',
      s = (pre' ++ d' ++ post')%string -> is_date d' ->
      (String.length pre <= String.length pre')%nat.

(** No substring of [s] is a date. *)
Definition no_date (s : string) : Prop :=
  forall pre d post, s = (pre ++ d ++ post)%string -> ~ is_date d.

(** What a validated setter lets through: the object [np.nan], or a float
    equal to one of the listed numbers. *)
Definition accepted (set : list float) (v : pyfloat) : bool :=
  match v with
  | np_nan => true
  | pyval f => existsb (PrimFloat.eqb f) set
  end.

(** Two tables agree on every column that [blank] does not overwrite. *)
Definition same_but (blank : row -> row) (rows rows' : list row) : Prop :=
  map blank rows' = map blank rows.

Definition is_read (c : call) : bool :=
  match c with
  | call_read_from_d_t _ _ _ _ => true
  | _ => false
  end.

(** The row has no calibration and no derived signal. *)
Definition uncalibrated (r : row) : Prop :=
  dlts_pf r = nan /\ bs r = nan /\ ls r = nan /\ f_pulse r = nan /\
  u1 r = nan /\ ur r = nan /\ time_between_meas r = nan /\
  integral_time r = nan /\ specimen_name r = None.

(** The categorical columns of the row hold allowed values. *)
Definition categorical_ok (r : row) : Prop :=
  in_value_set [1; 10; 100; 1000]%float (bs r) = true /\
  in_value_set [1; 2; 5; 10; 20; 50; 100; 200; 500; 1000]%float (ls r) = true /\
  in_value_set [0.3; 1; 3; 10; 30]%float (integral_time r) = true.

(** The dates found in the file fit a column of [n] rows. *)
Definition dates_fit (n : nat) (dates : list string) : Prop :=
  List.length dates = n \/ List.length dates = 1%nat.

(** The date row [i] is combined with: the only one, or the one at its own
    position. *)
Definition date_index (dates : list string) (i : nat) : nat :=
  if (List.length dates =? 1)%nat then 0%nat else i.

(** Every cell of the column, combined with its date, parses. *)
Definition cells_parse (to_datetime : string -> option Z)
    (col dates : list string) : Prop :=
  forall i c, nth_error col i = Some c ->
    exists d t, nth_error dates (date_index dates i) = Some d /\
                to_datetime (c ++ " " ++ d)%string = Some t.

(** ** Concrete inputs the statements are run on *)

(** A reading of ['%H:%M:%S %d.%m.%Y'] for cells written with two-digit
    fields, in seconds since 1970; the statements about read_from_d_t hold
    for every [to_datetime], this one serves to run it. *)
Definition two_digits (a b : ascii) : option Z :=
  if is_digit a && is_digit b
  then Some (10 * (Z.of_nat (nat_of_ascii a) - 48) + (Z.of_nat (nat_of_ascii b) - 48))
  else None.

Definition days_from_civil (y m d : Z) : Z :=
  let y := if m <=? 2 then y - 1 else y in
  let era := y / 400 in
  let yoe := y - era * 400 in
  let doy := (153 * (if m <=? 2 then m + 9 else m - 3) + 2) / 5 + d - 1 in
  let doe := yoe * 365 + yoe / 4 - yoe / 100 + doy in
  era * 146097 + doe - 719468.

Definition strptime_two_digit (s : string) : option Z :=
  match list_ascii_of_string s with
  | [h1; h2; c1; m1; m2; c2; s1; s2; sp; d1; d2; p1; o1; o2; p2; y1; y2; y3; y4] =>
      match two_digits h1 h2, two_digits m1 m2, two_digits s1 s2,
            two_digits d1 d2, two_digits o1 o2, two_digits y1 y2, two_digits y3 y4 with
      | Some h, Some mi, Some se, Some d, Some mo, Some yh, Some yl =>
          if Ascii.eqb c1 ":" && Ascii.eqb c2 ":" && Ascii.eqb sp " "
             && is_dot p1 && is_dot p2
             && (h <? 24) && (mi <? 60) && (se <? 60)
             && (1 <=? d) && (d <=? 31) && (1 <=? mo) && (mo <=? 12)
          then Some (days_from_civil (100 * yh + yl) mo d * 86400
                     + 3600 * h + 60 * mi + se)
          else None
      | _, _, _, _, _, _, _ => None
      end
  | _ => None
  end.

Definition newline : string := String (ascii_of_nat 10) EmptyString.

(** A signal file with the date in its comment line and three rows, and the
    frames read from it and from a temperature file with two rows. *)
Definition example_d_file : string :=
  ("# DLTS 01.01.2024" ++ newline ++
   "09:00:00 1 1000.0 0.5" ++ newline ++
   "09:00:03 2 500.0 0.25" ++ newline ++
   "09:00:09 3 250.0 0.125" ++ newline)%string.

Definition example_dlts_data : list (dlts_row string) :=
  [DltsRow "09:00:00"%string 1000 0.5; DltsRow "09:00:03"%string 500 0.25;
   DltsRow "09:00:09"%string 250 0.125].

Definition example_temperature_data : list (temp_row string) :=
  [TempRow "09:00:02"%string 300; TempRow "09:00:05"%string 301].

(** The same signal file without the date. *)
Definition undated_d_file : string :=
  ("# DLTS" ++ newline ++
   "09:00:00 1 1000.0 0.5" ++ newline ++
   "09:00:03 2 500.0 0.25" ++ newline ++
   "09:00:09 3 250.0 0.125" ++ newline)%string.

(** A signal file that carries a date on every row, read past midnight. *)
Definition midnight_d_file : string :=
  ("23:59:59 01.01.2024 1000.0 0.5" ++ newline ++
   "00:00:01 02.01.2024 500.0 0.25" ++ newline)%string.

Definition midnight_dlts_data : list (dlts_row string) :=
  [DltsRow "23:59:59"%string 1000 0.5; DltsRow "00:00:01"%string 500 0.25].

Definition midnight_temperature_data : list (temp_row string) :=
  [TempRow "23:59:58"%string 300; TempRow "00:00:02"%string 301].

(** A session: the example files are read, bs is set, a value of ls is
    refused, ls is set, the derived signal is computed. *)
Definition example_session : DataReader :=
  snd (run call_compute_dlts_pf
    (snd (run (call_set_ls (pyval 100))
      (snd (run (call_set_ls (pyval 3))
        (snd (run (call_set_bs (pyval 10))
          (snd (run (call_read_from_d_t strptime_two_digit
                       (Return example_dlts_data)
                       (Return example_temperature_data)
                       (Return example_d_file))
                    init))))))))).

(** The same two streams with their timestamps. *)
Definition example_dlts : list (dlts_row Z) :=
  [DltsRow (on_2024_01_01 9 0 0) 1000 0.5; DltsRow (on_2024_01_01 9 0 3) 500 0.25;
   DltsRow (on_2024_01_01 9 0 9) 250 0.125].

Definition example_temp : list (temp_row Z) :=
  [TempRow (on_2024_01_01 9 0 2) 300; TempRow (on_2024_01_01 9 0 5) 301].

(** A table with two rows, used to run the methods on. *)
Definition sample_row (t : Z) (v pf : float) : row :=
  Row (Some t) 1000 v 300 pf 10 100 nan nan nan nan 1 (Some "Si-1"%string).

Definition sample_reader : DataReader :=
  Reader [sample_row 1704099600 0.5 0.0005; sample_row 1704099605 0.25 0.00025].

(** A table of one row that holds a timestamp and no other value, a file
    system without files, a reader of unsigned whole numbers and a writer
    of numbers, to run saving and loading on. *)
Definition one_row_reader : DataReader :=
  Reader [Row (Some (on_2024_01_01 9 0 0)) nan nan nan nan nan nan nan nan nan
              nan nan None].

Definition no_files : file_system := FS (fun _ => None) (fun _ => true).

Fixpoint all_digits (s : string) : bool :=
  match s with
  | EmptyString => true
  | String a s' => is_digit a && all_digits s'
  end.

Fixpoint whole_number (acc : Z) (s : string) : Z :=
  match s with
  | EmptyString => acc
  | String a s' => whole_number (10 * acc + Z.of_nat (nat_of_ascii a) - 48) s'
  end.

Definition plain_number (s : string) : option float :=
  match s with
  | EmptyString => None
  | _ => if all_digits s then Some (of_uint63 (Uint63.of_Z (whole_number 0 s)))
         else None
  end.

Definition plain_repr (name : string) (f : float) : string :=
  if (f =? 1)%float then "1"%string else "0"%string.

Definition as_written (encoding : string) (s : string) : outcome string :=
  Return s.

(** * Properties *)

(** ** Floating-point facts *)

Lemma Prim2SF_nan : Prim2SF nan = S754_nan.
Proof. reflexivity. Qed.

Lemma eqb_nan_r (x : float) : PrimFloat.eqb x nan = false.
Proof.
  rewrite eqb_spec, Prim2SF_nan. unfold SFeqb, SFcompare.
  destruct (Prim2SF x); reflexivity.
Qed.

Lemma div_nan_r (x : float) : (x / nan)%float = nan.
Proof.
  apply Prim2SF_inj. rewrite div_spec, Prim2SF_nan.
  unfold SF64div, SFdiv. destruct (Prim2SF x); reflexivity.
Qed.

Lemma mul_nan_r (x : float) : (x * nan)%float = nan.
Proof.
  apply Prim2SF_inj. rewrite mul_spec, Prim2SF_nan.
  unfold SF64mul, SFmul. destruct (Prim2SF x); reflexivity.
Qed.

Lemma mul_nan_l (x : float) : (nan * x)%float = nan.
Proof.
  apply Prim2SF_inj. rewrite mul_spec, Prim2SF_nan.
  unfold SF64mul, SFmul. destruct (Prim2SF x); reflexivity.
Qed.

Lemma is_nan_eq (x : float) : is_nan x = true -> x = nan.
Proof.
  unfold is_nan. rewrite eqb_spec. intros H.
  apply Prim2SF_inj. rewrite Prim2SF_nan.
  destruct (Prim2SF x) as [s|s| |s m e]; try reflexivity;
    unfold SFeqb, SFcompare in H.
  all: cycle 1.
  - destruct s; discriminate.
  - destruct s; rewrite Z.compare_refl, Pos.compare_refl in H; simpl in H;
      discriminate.
  - destruct s; discriminate.
Qed.

Lemma nan_neq (x : float) : is_nan x = false -> nan <> x.
Proof. intros H E. subst x. discriminate H. Qed.

(** ** The validated setters *)

(** What [in] accepts belongs to the set of values of the list. *)
Lemma py_in_value_set (v : pyfloat) (l : list pyfloat) :
  py_in v l = true -> in_value_set (map float_of l) (float_of v) = true.
Proof.
  unfold py_in, in_value_set. induction l as [|a l IH]; simpl.
  - discriminate.
  - intros H. apply orb_true_iff in H. destruct H as [H|H].
    + apply orb_true_iff in H. destruct H as [H|H].
      * destruct v, a; try discriminate H. reflexivity.
      * unfold py_eq in H. rewrite H. simpl. apply orb_true_r.
    + specialize (IH H). apply orb_true_iff in IH. destruct IH as [IH|IH].
      * rewrite IH. reflexivity.
      * rewrite IH. rewrite !orb_true_r. reflexivity.
Qed.

(** The NaN a list ends with adds no member by value. *)
Lemma in_value_set_nan_last (set : list float) (x : float) :
  in_value_set (set ++ [nan]) x = in_value_set set x.
Proof.
  unfold in_value_set. rewrite existsb_app. simpl.
  rewrite eqb_nan_r. rewrite !orb_false_r. reflexivity.
Qed.

Lemma set_column_length (upd : row -> row) (self : DataReader) :
  List.length (data (set_column upd self)) = List.length (data self).
Proof. unfold set_column. simpl. apply length_map. Qed.

Lemma set_column_Forall (P : row -> Prop) (upd : row -> row) (self : DataReader) :
  (forall r, P (upd r)) -> Forall P (data (set_column upd self)).
Proof.
  intros H. unfold set_column. simpl. apply Forall_forall. intros r Hr.
  apply in_map_iff in Hr. destruct Hr as [r0 [<- _]]. apply H.
Qed.

Lemma set_bs_cases (v : pyfloat) (self : DataReader) :
  (py_in v (map lit_val bs_allowed_values) = true /\
   set_bs v self = (Return tt, set_column (with_bs (float_of v)) self)) \/
  (py_in v (map lit_val bs_allowed_values) = false /\
   set_bs v self =
     (Raise (ValueError "bs value must be 1, 10, 100, 1000 or NaN"), self)).
Proof.
  unfold set_bs. cbv zeta.
  destruct (py_in v (map lit_val bs_allowed_values)); [left|right]; split;
    reflexivity.
Qed.

Lemma set_ls_cases (v : pyfloat) (self : DataReader) :
  (py_in v (map lit_val ls_allowed_values) = true /\
   set_ls v self = (Return tt, set_column (with_ls (float_of v)) self)) \/
  (py_in v (map lit_val ls_allowed_values) = false /\
   set_ls v self =
     (Raise (ValueError
        "ls value must be 1, 2, 5, 10, 20, 50, 100, 200, 500, 1000 or NaN"),
      self)).
Proof.
  unfold set_ls. cbv zeta.
  destruct (py_in v (map lit_val ls_allowed_values)); [left|right]; split;
    reflexivity.
Qed.

Lemma set_integral_time_cases (v : pyfloat) (self : DataReader) :
  (py_in v (map lit_val integral_time_allowed_values) = true /\
   set_integral_time v self =
     (Return tt, set_column (with_integral_time (float_of v)) self)) \/
  (py_in v (map lit_val integral_time_allowed_values) = false /\
   set_integral_time v self =
     (Raise (ValueError "time value must be 0.3, 1, 3, 10, 30 or NaN"), self)).
Proof.
  unfold set_integral_time. cbv zeta.
  destruct (py_in v (map lit_val integral_time_allowed_values));
    [left|right]; split; reflexivity.
Qed.

Lemma rejected_outside (v : pyfloat) (allowed : list literal) (set : list float) :
  map float_of (map lit_val allowed) = set ++ [nan] ->
  in_value_set set (float_of v) = false ->
  py_in v (map lit_val allowed) = false.
Proof.
  intros Hset Hout. destruct (py_in v (map lit_val allowed)) eqn:E; [|reflexivity].
  apply py_in_value_set in E. rewrite Hset, in_value_set_nan_last in E.
  congruence.
Qed.

(** ** Frame of compute_dlts_pf *)

(** C10: compute_dlts_pf returns normally, keeps the number of rows, and at
    every row position leaves the twelve columns other than dlts_pf exactly
    as they were. *)
Theorem compute_dlts_pf_frame :
  forall self : DataReader,
    fst (compute_dlts_pf self) = Return tt /\
    List.length (data (snd (compute_dlts_pf self))) = List.length (data self) /\
    map time (data (snd (compute_dlts_pf self))) = map time (data self) /\
    map frequency_hz (data (snd (compute_dlts_pf self))) = map frequency_hz (data self) /\
    map dlts_v (data (snd (compute_dlts_pf self))) = map dlts_v (data self) /\
    map temperature_k (data (snd (compute_dlts_pf self))) = map temperature_k (data self) /\
    map bs (data (snd (compute_dlts_pf self))) = map bs (data self) /\
    map ls (data (snd (compute_dlts_pf self))) = map ls (data self) /\
    map f_pulse (data (snd (compute_dlts_pf self))) = map f_pulse (data self) /\
    map u1 (data (snd (compute_dlts_pf self))) = map u1 (data self) /\
    map ur (data (snd (compute_dlts_pf self))) = map ur (data self) /\
    map time_between_meas (data (snd (compute_dlts_pf self))) = map time_between_meas (data self) /\
    map integral_time (data (snd (compute_dlts_pf self))) = map integral_time (data self) /\
    map specimen_name (data (snd (compute_dlts_pf self))) = map specimen_name (data self).
Proof.
  intros [rows]; cbn [compute_dlts_pf fst snd data].
  split; [reflexivity|].
  split; [apply length_map|].
  repeat split; rewrite map_map; apply map_ext; intros r; reflexivity.
Qed.

(** ** Rejection leaves the table alone *)

(** C5: a value outside the allowed set of bs, ls or integral_time makes the
    setter raise a ValueError whose message lists the allowed values, and the
    reader after the failed call is the reader before it: every column,
    dlts_pf included, is untouched. *)
Theorem setters_reject_outside_allowed_set :
  forall (v : pyfloat) (self : DataReader),
    (in_value_set [1; 10; 100; 1000]%float (float_of v) = false ->
     set_bs v self =
       (Raise (ValueError "bs value must be 1, 10, 100, 1000 or NaN"), self)) /\
    (in_value_set [1; 2; 5; 10; 20; 50; 100; 200; 500; 1000]%float (float_of v) = false ->
     set_ls v self =
       (Raise (ValueError
          "ls value must be 1, 2, 5, 10, 20, 50, 100, 200, 500, 1000 or NaN"),
        self)) /\
    (in_value_set [0.3; 1; 3; 10; 30]%float (float_of v) = false ->
     set_integral_time v self =
       (Raise (ValueError "time value must be 0.3, 1, 3, 10, 30 or NaN"), self)).
Proof.
  intros v self. repeat split; intros Hout.
  - destruct (set_bs_cases v self) as [[Hin _]|[_ H]]; [|exact H].
    rewrite (rejected_outside v bs_allowed_values [1; 10; 100; 1000]%float eq_refl Hout) in Hin.
    discriminate.
  - destruct (set_ls_cases v self) as [[Hin _]|[_ H]]; [|exact H].
    rewrite (rejected_outside v ls_allowed_values
               [1; 2; 5; 10; 20; 50; 100; 200; 500; 1000]%float eq_refl Hout) in Hin.
    discriminate.
  - destruct (set_integral_time_cases v self) as [[Hin _]|[_ H]]; [|exact H].
    rewrite (rejected_outside v integral_time_allowed_values
               [0.3; 1; 3; 10; 30]%float eq_refl Hout) in Hin.
    discriminate.
Qed.

(** bs = 5, ls = 3 and integral_time = 0.5 on a table that holds a computed
    dlts_pf. *)
Lemma setters_reject_outside_allowed_set_witness :
  set_bs (pyval 5) sample_reader =
    (Raise (ValueError "bs value must be 1, 10, 100, 1000 or NaN"), sample_reader) /\
  set_ls (pyval 3) sample_reader =
    (Raise (ValueError
       "ls value must be 1, 2, 5, 10, 20, 50, 100, 200, 500, 1000 or NaN"),
     sample_reader) /\
  set_integral_time (pyval 0.5) sample_reader =
    (Raise (ValueError "time value must be 0.3, 1, 3, 10, 30 or NaN"), sample_reader).
Proof.
  split; [|split].
  - apply (setters_reject_outside_allowed_set (pyval 5) sample_reader).
    reflexivity.
  - apply (setters_reject_outside_allowed_set (pyval 3) sample_reader).
    reflexivity.
  - apply (setters_reject_outside_allowed_set (pyval 0.5) sample_reader).
    reflexivity.
Defined.

(** ** Broadcast of the calibration scalars *)

Ltac broadcast_tac :=
  split; [apply set_column_length | apply set_column_Forall; reflexivity].

(** C7: a call of any of the eight setters that returns normally keeps the
    rows and leaves the given value in its column at every row; the four
    unvalidated numeric setters and set_specimen_name always return
    normally, and set_integral_time(0.3) does. *)
Theorem setters_broadcast :
  forall (self : DataReader),
    (forall v self', set_bs v self = (Return tt, self') ->
       List.length (data self') = List.length (data self) /\
       Forall (fun r => bs r = float_of v) (data self')) /\
    (forall v self', set_ls v self = (Return tt, self') ->
       List.length (data self') = List.length (data self) /\
       Forall (fun r => ls r = float_of v) (data self')) /\
    (forall v self', set_integral_time v self = (Return tt, self') ->
       List.length (data self') = List.length (data self) /\
       Forall (fun r => integral_time r = float_of v) (data self')) /\
    (forall v, fst (set_f_pulse v self) = Return tt /\
       List.length (data (snd (set_f_pulse v self))) = List.length (data self) /\
       Forall (fun r => f_pulse r = float_of v) (data (snd (set_f_pulse v self)))) /\
    (forall v, fst (set_u1 v self) = Return tt /\
       List.length (data (snd (set_u1 v self))) = List.length (data self) /\
       Forall (fun r => u1 r = float_of v) (data (snd (set_u1 v self)))) /\
    (forall v, fst (set_ur v self) = Return tt /\
       List.length (data (snd (set_ur v self))) = List.length (data self) /\
       Forall (fun r => ur r = float_of v) (data (snd (set_ur v self)))) /\
    (forall v, fst (set_time_between_meas v self) = Return tt /\
       List.length (data (snd (set_time_between_meas v self))) = List.length (data self) /\
       Forall (fun r => time_between_meas r = float_of v)
              (data (snd (set_time_between_meas v self)))) /\
    (forall name, fst (set_specimen_name name self) = Return tt /\
       List.length (data (snd (set_specimen_name name self))) = List.length (data self) /\
       Forall (fun r => specimen_name r = Some name)
              (data (snd (set_specimen_name name self)))) /\
    (fst (set_integral_time (pyval 0.3) self) = Return tt /\
     Forall (fun r => integral_time r = 0.3%float)
            (data (snd (set_integral_time (pyval 0.3) self)))).
Proof.
  intros self. repeat apply conj.
  - intros v self' H.
    destruct (set_bs_cases v self) as [[_ E]|[_ E]]; rewrite E in H;
      [|discriminate]. injection H as <-. broadcast_tac.
  - intros v self' H.
    destruct (set_ls_cases v self) as [[_ E]|[_ E]]; rewrite E in H;
      [|discriminate]. injection H as <-. broadcast_tac.
  - intros v self' H.
    destruct (set_integral_time_cases v self) as [[_ E]|[_ E]]; rewrite E in H;
      [|discriminate]. injection H as <-. broadcast_tac.
  - intros v. split; [reflexivity|]. cbn [set_f_pulse snd]. broadcast_tac.
  - intros v. split; [reflexivity|]. cbn [set_u1 snd]. broadcast_tac.
  - intros v. split; [reflexivity|]. cbn [set_ur snd]. broadcast_tac.
  - intros v. split; [reflexivity|]. cbn [set_time_between_meas snd].
    broadcast_tac.
  - intros name. split; [reflexivity|]. cbn [set_specimen_name snd].
    broadcast_tac.
  - destruct (set_integral_time_cases (pyval 0.3) self) as [[_ E]|[Hin _]];
      [|discriminate Hin]. rewrite E. reflexivity.
  - destruct (set_integral_time_cases (pyval 0.3) self) as [[_ E]|[Hin _]];
      [|discriminate Hin]. rewrite E. cbn [snd].
    apply set_column_Forall. reflexivity.
Qed.

(** bs = 100 on the two-row table. *)
Lemma setters_broadcast_witness :
  List.length (data (snd (set_bs (pyval 100) sample_reader))) = 2%nat /\
  Forall (fun r => bs r = 100%float) (data (snd (set_bs (pyval 100) sample_reader))).
Proof.
  destruct (setters_broadcast sample_reader) as [Hbs _].
  apply (Hbs (pyval 100) (snd (set_bs (pyval 100) sample_reader))).
  reflexivity.
Defined.

(** ** The derived signal *)

Lemma Forall2_map_r {A B : Type} (R : A -> B -> Prop) (f : A -> B) (l : list A) :
  (forall a, In a l -> R a (f a)) -> Forall2 R l (map f l).
Proof.
  induction l as [|a l IH]; intros H; simpl; constructor.
  - apply H. left. reflexivity.
  - apply IH. intros b Hb. apply H. right. exact Hb.
Qed.

Lemma pf_of_nan (r : row) :
  is_nan (bs r) = true \/ is_nan (ls r) = true -> pf_of r = nan.
Proof.
  unfold pf_of. intros [H|H]; apply is_nan_eq in H; rewrite H.
  - rewrite div_nan_r, mul_nan_l, div_nan_r. reflexivity.
  - rewrite div_nan_r, mul_nan_r, div_nan_r. reflexivity.
Qed.

Lemma set_bs_accepts (v : pyfloat) (self : DataReader) :
  py_in v (map lit_val bs_allowed_values) = true ->
  set_bs v self = (Return tt, set_column (with_bs (float_of v)) self).
Proof.
  intros H. destruct (set_bs_cases v self) as [[_ E]|[E _]]; congruence.
Qed.

Lemma set_ls_accepts (v : pyfloat) (self : DataReader) :
  py_in v (map lit_val ls_allowed_values) = true ->
  set_ls v self = (Return tt, set_column (with_ls (float_of v)) self).
Proof.
  intros H. destruct (set_ls_cases v self) as [[_ E]|[E _]]; congruence.
Qed.

(** C6: compute_dlts_pf returns normally and puts
    dlts_v / ((10 / bs) * (10000 / ls)) of each row into that row's dlts_pf,
    which is NaN whenever the row's bs or ls is NaN; after set_bs(b) and
    set_ls(l) with b and l from the allowed values, both of which return
    normally, every row's dlts_pf is dlts_v / ((10 / b) * (10000 / l)). *)
Theorem compute_dlts_pf_formula :
  forall (self : DataReader),
    fst (compute_dlts_pf self) = Return tt /\
    Forall2
      (fun r r' =>
         dlts_pf r' = (dlts_v r / ((10 / bs r) * (10000 / ls r)))%float /\
         (is_nan (bs r) = true \/ is_nan (ls r) = true ->
          dlts_pf r' = nan /\ is_nan (dlts_pf r') = true))
      (data self) (data (snd (compute_dlts_pf self))) /\
    (forall b l : float,
        In b [1; 10; 100; 1000]%float ->
        In l [1; 2; 5; 10; 20; 50; 100; 200; 500; 1000]%float ->
        exists s1 s2,
          set_bs (pyval b) self = (Return tt, s1) /\
          set_ls (pyval l) s1 = (Return tt, s2) /\
          fst (compute_dlts_pf s2) = Return tt /\
          Forall2
            (fun r r' =>
               dlts_v r' = dlts_v r /\
               dlts_pf r' = (dlts_v r / ((10 / b) * (10000 / l)))%float)
            (data self) (data (snd (compute_dlts_pf s2)))).
Proof.
  intros self. split; [reflexivity|]. split.
  - cbn [compute_dlts_pf snd data]. apply Forall2_map_r. intros r _.
    split; [reflexivity|]. intros H. cbn [with_dlts_pf dlts_pf].
    rewrite (pf_of_nan r H). split; reflexivity.
  - intros b l Hb Hl.
    exists (set_column (with_bs b) self).
    exists (set_column (with_ls l) (set_column (with_bs b) self)).
    split; [|split; [|split; [reflexivity|]]].
    + apply (set_bs_accepts (pyval b)).
      simpl in Hb.
      destruct Hb as [<-|[<-|[<-|[<-|[]]]]]; reflexivity.
    + apply (set_ls_accepts (pyval l)).
      simpl in Hl.
      destruct Hl as [<-|[<-|[<-|[<-|[<-|[<-|[<-|[<-|[<-|[<-|[]]]]]]]]]]];
        reflexivity.
    + cbn [compute_dlts_pf snd data set_column]. rewrite !map_map.
      apply Forall2_map_r. intros r _. split; reflexivity.
Qed.

(** bs = 10 and ls = 100 on the two-row table. *)
Lemma compute_dlts_pf_formula_witness :
  exists s1 s2,
    set_bs (pyval 10) sample_reader = (Return tt, s1) /\
    set_ls (pyval 100) s1 = (Return tt, s2) /\
    fst (compute_dlts_pf s2) = Return tt /\
    Forall2
      (fun r r' =>
         dlts_v r' = dlts_v r /\
         dlts_pf r' = (dlts_v r / ((10 / 10) * (10000 / 100)))%float)
      (data sample_reader) (data (snd (compute_dlts_pf s2))).
Proof.
  destruct (compute_dlts_pf_formula sample_reader) as [_ [_ H]].
  apply (H 10%float 100%float); simpl;
    repeat (first [left; reflexivity | right]).
Defined.

(** ** Ordering the temperature stream *)

Lemma insert_by_time_perm (x : temp_row Z) (l : list (temp_row Z)) :
  Permutation (x :: l) (insert_by_time x l).
Proof.
  induction l as [|y l IH]; simpl.
  - apply Permutation_refl.
  - destruct (t_time x <=? t_time y).
    + apply Permutation_refl.
    + eapply perm_trans; [apply perm_swap|]. apply perm_skip. exact IH.
Qed.

Lemma sort_by_time_perm (l : list (temp_row Z)) :
  Permutation l (sort_by_time l).
Proof.
  induction l as [|x l IH]; simpl.
  - apply perm_nil.
  - eapply perm_trans; [apply perm_skip; exact IH|].
    apply insert_by_time_perm.
Qed.

Lemma insert_by_time_sorted (x : temp_row Z) (l : list (temp_row Z)) :
  StronglySorted time_le l -> StronglySorted time_le (insert_by_time x l).
Proof.
  induction 1 as [|y l Hs IH Hy]; simpl.
  - constructor; constructor.
  - destruct (Z.leb_spec (t_time x) (t_time y)) as [Hle|Hgt].
    + constructor; [constructor; assumption|].
      constructor; [exact Hle|].
      eapply Forall_impl; [|exact Hy]. unfold time_le. intros; lia.
    + constructor; [exact IH|].
      eapply Permutation_Forall; [apply insert_by_time_perm|].
      constructor; [unfold time_le; lia | exact Hy].
Qed.

Lemma sort_by_time_sorted (l : list (temp_row Z)) :
  StronglySorted time_le (sort_by_time l).
Proof.
  induction l as [|x l IH]; simpl.
  - constructor.
  - apply insert_by_time_sorted. exact IH.
Qed.

Lemma sort_by_time_In (a : temp_row Z) (l : list (temp_row Z)) :
  In a (sort_by_time l) <-> In a l.
Proof.
  split; apply Permutation_in;
    [apply Permutation_sym|]; apply sort_by_time_perm.
Qed.

Lemma is_unique_NoDup (l : list Z) : is_unique l = true <-> NoDup l.
Proof.
  induction l as [|x l IH]; simpl.
  - split; [constructor | reflexivity].
  - rewrite andb_true_iff, negb_true_iff, IH. split.
    + intros [Hx Hl]. constructor; [|exact Hl]. intros Hin.
      assert (existsb (Z.eqb x) l = true) as E; [|congruence].
      apply existsb_exists. exists x. split; [exact Hin | apply Z.eqb_refl].
    + intros Hnd. inversion Hnd as [|? ? Hx Hl]; subst. split; [|exact Hl].
      destruct (existsb (Z.eqb x) l) eqn:E; [|reflexivity].
      apply existsb_exists in E. destruct E as [y [Hy Exy]].
      apply Z.eqb_eq in Exy. subst y. contradiction.
Qed.

Lemma is_unique_sort (l : list (temp_row Z)) :
  is_unique (map t_time (sort_by_time l)) = is_unique (map t_time l).
Proof.
  assert (Permutation (map t_time l) (map t_time (sort_by_time l))) as P
      by (apply Permutation_map, sort_by_time_perm).
  destruct (is_unique (map t_time l)) eqn:E.
  - apply is_unique_NoDup. apply is_unique_NoDup in E.
    eapply Permutation_NoDup; eassumption.
  - destruct (is_unique (map t_time (sort_by_time l))) eqn:E'; [|reflexivity].
    apply is_unique_NoDup in E'.
    apply Permutation_sym in P.
    pose proof (Permutation_NoDup P E') as N.
    apply is_unique_NoDup in N. congruence.
Qed.

Lemma sorted_last_max (l : list (temp_row Z)) (d a : temp_row Z) :
  StronglySorted time_le l -> In a l -> t_time a <= t_time (List.last l d).
Proof.
  intros Hs. revert a.
  induction Hs as [|y l Hs IH Hy]; intros a Hin; [contradiction|].
  destruct l as [|z l'].
  - destruct Hin as [<-|[]]. simpl. lia.
  - change (List.last (y :: z :: l') d) with (List.last (z :: l') d).
    destruct Hin as [<-|Hin].
    + specialize (IH z (or_introl eq_refl)).
      inversion Hy as [|? ? Hyz _]; subst. unfold time_le in Hyz. lia.
    + apply IH. exact Hin.
Qed.

Lemma last_In (l : list (temp_row Z)) (a : temp_row Z) :
  In (List.last (a :: l) a) (a :: l).
Proof.
  revert a. induction l as [|b l IH]; intros a.
  - left. reflexivity.
  - change (List.last (a :: b :: l) a) with (List.last (b :: l) a).
    right. destruct l as [|c l'].
    + left. reflexivity.
    + specialize (IH b).
      change (List.last (b :: c :: l') a) with (List.last (c :: l') a).
      change (List.last (b :: c :: l') b) with (List.last (c :: l') b) in IH.
      replace (List.last (c :: l') a) with (List.last (c :: l') b);
        [exact IH|].
      clear. revert c. induction l' as [|e l' IH']; intros c; [reflexivity|].
      change (List.last (c :: e :: l') b) with (List.last (e :: l') b).
      change (List.last (c :: e :: l') a) with (List.last (e :: l') a).
      apply IH'.
Qed.

(** ** Forward fill *)

Lemma pad_spec (obj : list (temp_row Z)) (g : Z) :
  StronglySorted time_le obj ->
  match pad obj g with
  | Some v =>
      exists a, In a obj /\ t_time a <= g /\ t_temperature_k a = v /\
                forall a', In a' obj -> t_time a' <= g -> t_time a' <= t_time a
  | None => forall a, In a obj -> g < t_time a
  end.
Proof.
  induction 1 as [|y l Hs IH Hy]; simpl.
  - intros a [].
  - destruct (Z.leb_spec (t_time y) g) as [Hle|Hgt].
    + destruct (pad l g) as [w|].
      * destruct IH as [a [Ha [Hag [Hv Hmax]]]].
        exists a. repeat split; auto.
        intros a' [<-|Ha'] Hle'.
        -- rewrite Forall_forall in Hy. apply (Hy a Ha).
        -- apply Hmax; assumption.
      * exists y. repeat split; auto.
        intros a' [<-|Ha'] Hle'; [lia|].
        specialize (IH a' Ha'). lia.
    + intros a [<-|Ha]; [lia|].
      rewrite Forall_forall in Hy. specialize (Hy a Ha).
      unfold time_le in Hy. lia.
Qed.

(** ** The join against a per-second grid *)

Lemma filter_seconds_from (f : Z -> float) (t first : Z) (n : nat) :
  filter (fun g => t_time g =? t)
         (map (fun g => TempRow g (f g)) (seconds_from first n)) =
  if (first <=? t) && (t <? first + Z.of_nat n) then [TempRow t (f t)] else [].
Proof.
  revert first. induction n as [|n IH]; intros first.
  - simpl. destruct (Z.leb_spec first t), (Z.ltb_spec t (first + 0));
      simpl; try reflexivity; lia.
  - cbn [seconds_from map filter t_time]. rewrite IH.
    destruct (Z.eqb_spec first t) as [->|Hne].
    + destruct (Z.leb_spec (t + 1) t); [lia|].
      destruct (Z.leb_spec t t); [|lia].
      destruct (Z.ltb_spec t (t + Z.of_nat (S n))); [|lia].
      reflexivity.
    + destruct (Z.leb_spec (first + 1) t), (Z.leb_spec first t),
        (Z.ltb_spec t (first + 1 + Z.of_nat n)),
        (Z.ltb_spec t (first + Z.of_nat (S n)));
        simpl; try reflexivity; lia.
Qed.

Lemma merge_left_grid (f : Z -> float) (first : Z) (n : nat)
    (dlts : list (dlts_row Z)) :
  merge_left dlts (map (fun g => TempRow g (f g)) (seconds_from first n)) =
  map (joined f first n) dlts.
Proof.
  induction dlts as [|d dlts IH]; [reflexivity|].
  unfold merge_left in *. cbn [flat_map map]. rewrite filter_seconds_from.
  unfold joined at 1.
  destruct ((first <=? d_time d) && (d_time d <? first + Z.of_nat n));
    cbn [map app t_temperature_k]; f_equal; exact IH.
Qed.

(** ** The merge as a whole *)

Lemma resample_S_ffill_duplicate (temp : list (temp_row Z)) :
  is_unique (map t_time temp) = false ->
  resample_S_ffill temp =
    Raise (ValueError "cannot reindex on an axis with duplicate labels").
Proof.
  intros Hdup. unfold resample_S_ffill.
  pose proof (is_unique_sort temp) as Hs. rewrite Hdup in Hs.
  destruct (sort_by_time temp) as [|a l]; [discriminate Hs|].
  unfold reindex_ffill. rewrite Hs. reflexivity.
Qed.

Lemma time_alignment_merge_duplicate (dlts : list (dlts_row Z))
    (temp : list (temp_row Z)) :
  is_unique (map t_time temp) = false ->
  time_alignment_merge dlts temp =
    Raise (ValueError "cannot reindex on an axis with duplicate labels").
Proof.
  intros Hdup. unfold time_alignment_merge.
  rewrite (resample_S_ffill_duplicate temp Hdup). reflexivity.
Qed.

Lemma time_alignment_merge_empty (dlts : list (dlts_row Z)) :
  time_alignment_merge dlts [] =
    Raise (ValueError "The name time occurs multiple times, use a level number").
Proof. reflexivity. Qed.

Lemma time_alignment_merge_unique (dlts : list (dlts_row Z))
    (temp : list (temp_row Z)) :
  is_unique (map t_time temp) = true -> temp <> [] ->
  exists first n,
    time_alignment_merge dlts temp =
      Return (map (joined (filled temp) first n) dlts) /\
    (temp = [] -> n = 0%nat) /\
    (forall a, In a temp -> first <= t_time a < first + Z.of_nat n) /\
    (temp <> [] ->
     (exists a, In a temp /\ t_time a = first) /\
     (exists b, In b temp /\ t_time b = first + Z.of_nat n - 1)).
Proof.
  intros Huniq Hne. unfold time_alignment_merge, resample_S_ffill, filled.
  pose proof (is_unique_sort temp) as Hs. rewrite Huniq in Hs.
  pose proof (sort_by_time_sorted temp) as Hsorted.
  pose proof (fun a => sort_by_time_In a temp) as HIn.
  destruct (sort_by_time temp) as [|a l] eqn:E.
  - exfalso. apply Hne. destruct temp as [|x temp]; [reflexivity|].
    destruct (proj2 (HIn x) (or_introl eq_refl)).
  - unfold reindex_ffill. rewrite Hs. cbn [obind]. unfold date_range.
    set (last := t_time (List.last (a :: l) a)).
    assert (forall x, In x temp -> t_time a <= t_time x <= last) as Hbounds.
    { intros x Hx. apply HIn in Hx. split.
      - destruct Hx as [<-|Hx]; [lia|].
        inversion Hsorted as [|? ? _ Hall]; subst.
        rewrite Forall_forall in Hall. apply (Hall x Hx).
      - apply sorted_last_max; assumption. }
    assert (In a temp) as Ha by (apply HIn; left; reflexivity).
    assert (In (List.last (a :: l) a) temp) as Hl by (apply HIn, last_In).
    pose proof (Hbounds a Ha) as Hfl.
    exists (t_time a), (Z.to_nat (last - t_time a + 1)).
    assert (Z.to_nat (last - t_time a + 1) = S (Z.to_nat (last - t_time a)))
      as En by lia.
    split.
    { unfold merge. rewrite En at 1. cbn [seconds_from map time_levels Nat.eqb].
      rewrite <- (merge_left_grid (fun g => value_or_nan (pad (a :: l) g))).
      rewrite En. reflexivity. }
    split; [intros Hnil; rewrite Hnil in Ha; destruct Ha|].
    split.
    + intros x Hx. specialize (Hbounds x Hx). lia.
    + intros _. split.
      * exists a. split; [exact Ha | reflexivity].
      * exists (List.last (a :: l) a). split; [exact Hl|]. fold last. lia.
Qed.

Lemma time_alignment_merge_nonempty (dlts : list (dlts_row Z))
    (temp : list (temp_row Z)) (merged : list merged_row) :
  time_alignment_merge dlts temp = Return merged -> temp <> [].
Proof.
  intros H ->. rewrite time_alignment_merge_empty in H. discriminate H.
Qed.

Lemma joined_signal (f : Z -> float) (first : Z) (n : nat)
    (dlts : list (dlts_row Z)) :
  map signal_of (map (joined f first n) dlts) = dlts.
Proof.
  rewrite map_map. rewrite <- (map_id dlts) at 2. apply map_ext.
  intros [t fr v]. reflexivity.
Qed.

Lemma time_alignment_merge_returns (dlts : list (dlts_row Z))
    (temp : list (temp_row Z)) (merged : list merged_row) :
  time_alignment_merge dlts temp = Return merged ->
  is_unique (map t_time temp) = true.
Proof.
  intros H. destruct (is_unique (map t_time temp)) eqn:E; [reflexivity|].
  rewrite (time_alignment_merge_duplicate dlts temp E) in H. discriminate H.
Qed.

Lemma filled_spec (temp : list (temp_row Z)) (t : Z) :
  (exists a, In a temp /\ t_time a <= t) ->
  exists a, latest_at_or_before temp t a /\ filled temp t = t_temperature_k a.
Proof.
  intros [a0 [Ha0 Hle0]]. unfold filled.
  pose proof (pad_spec (sort_by_time temp) t (sort_by_time_sorted temp)) as H.
  destruct (pad (sort_by_time temp) t) as [v|].
  - destruct H as [a [Ha [Hle [Hv Hmax]]]].
    exists a. split; [|symmetry; exact Hv].
    split; [apply sort_by_time_In; exact Ha|]. split; [exact Hle|].
    intros a' Ha' Hle'. apply Hmax; [apply sort_by_time_In|]; assumption.
  - specialize (H a0 (proj2 (sort_by_time_In a0 temp) Ha0)). lia.
Qed.

(** ** read_from_d_t, stage by stage *)

Lemma series_add_list_length (col l res : list string) :
  series_add_list col l = Return res -> List.length res = List.length col.
Proof.
  unfold series_add_list.
  destruct (Nat.eqb_spec (List.length col) (List.length l)) as [E|_].
  - intros H. injection H as <-. rewrite length_map, length_combine. lia.
  - destruct l as [|d [|d' l]]; destruct col as [|c [|c' col]];
      try discriminate; intros H; injection H as <-; simpl;
      rewrite ?length_map; reflexivity.
Qed.

Lemma mapM_length {A B : Type} (f : A -> outcome B) (l : list A) (res : list B) :
  mapM f l = Return res -> List.length res = List.length l.
Proof.
  revert res. induction l as [|a l IH]; simpl; intros res H.
  - injection H as <-. reflexivity.
  - destruct (f a) as [b|e]; [|discriminate H]. cbn [obind] in H.
    destruct (mapM f l) as [bs0|e]; [|discriminate H]. cbn [obind] in H.
    injection H as <-. simpl. f_equal. apply IH. reflexivity.
Qed.

Lemma timestamps_length (to_datetime : string -> option Z)
    (col date_str : list string) (res : list Z) :
  timestamps to_datetime col date_str = Return res ->
  List.length res = List.length col.
Proof.
  unfold timestamps, to_datetime_series. intros H.
  destruct (series_add_list (map (fun c => (c ++ " ")%string) col) date_str)
    as [texts|e] eqn:E; [|discriminate H]. cbn [obind] in H.
  apply mapM_length in H. apply series_add_list_length in E.
  rewrite length_map in E. congruence.
Qed.

Lemma with_times_map {A B C : Type} (mk : A -> Z -> B) (g : B -> C) (h : A -> C)
    (rows : list A) (times : list Z) :
  (forall r t, g (mk r t) = h r) ->
  List.length times = List.length rows ->
  map g (with_times mk rows times) = map h rows.
Proof.
  intros Hg. unfold with_times. revert times.
  induction rows as [|r rows IH]; intros [|t times] Hlen;
    try discriminate Hlen; [reflexivity|].
  simpl. rewrite Hg. f_equal. apply IH. simpl in Hlen. lia.
Qed.

Lemma with_times_times {A B : Type} (mk : A -> Z -> B) (g : B -> Z)
    (rows : list A) (times : list Z) :
  (forall r t, g (mk r t) = t) ->
  List.length times = List.length rows ->
  map g (with_times mk rows times) = times.
Proof.
  intros Hg. unfold with_times. revert times.
  induction rows as [|r rows IH]; intros [|t times] Hlen;
    try discriminate Hlen; [reflexivity|].
  simpl. rewrite Hg. f_equal. apply IH. simpl in Hlen. lia.
Qed.

Lemma read_from_d_t_inv (to_datetime : string -> option Z) (d_file : string)
    (dlts : list (dlts_row string)) (temp : list (temp_row string))
    (self self' : DataReader) (u : unit) :
  read_from_d_t to_datetime (Return dlts) (Return temp) (Return d_file) self = (Return u, self') ->
  exists dtimes ttimes merged,
    timestamps to_datetime (map d_time dlts) (re_findall d_file) = Return dtimes /\
    timestamps to_datetime (map t_time temp) (re_findall d_file) = Return ttimes /\
    time_alignment_merge
      (with_times (fun r t => DltsRow t (d_frequency_hz r) (d_dlts_v r)) dlts dtimes)
      (with_times (fun r t => TempRow t (t_temperature_k r)) temp ttimes)
      = Return merged /\
    self' = Reader (setitem_columns merged (data self)).
Proof.
  unfold read_from_d_t. cbv zeta. cbn [obind].
  destruct (timestamps to_datetime (map d_time dlts) (re_findall d_file))
    as [dtimes|e]; cbn [obind]; [|discriminate].
  destruct (timestamps to_datetime (map t_time temp) (re_findall d_file))
    as [ttimes|e]; cbn [obind]; [|discriminate].
  destruct (time_alignment_merge _ _) as [merged|e] eqn:E; [|discriminate].
  intros H. injection H as _ <-.
  exists dtimes, ttimes, merged. repeat split; assumption.
Qed.

Lemma read_from_d_t_reads (to_datetime : string -> option Z)
    (dlts_read : outcome (list (dlts_row string)))
    (temperature_read : outcome (list (temp_row string)))
    (d_file_read : outcome string) (self self' : DataReader) (u : unit) :
  read_from_d_t to_datetime dlts_read temperature_read d_file_read self
    = (Return u, self') ->
  exists dlts temp d_file,
    dlts_read = Return dlts /\ temperature_read = Return temp /\
    d_file_read = Return d_file.
Proof.
  unfold read_from_d_t. cbv zeta.
  destruct dlts_read as [dlts|e]; [|discriminate].
  destruct temperature_read as [temp|e]; [|discriminate].
  destruct d_file_read as [d_file|e]; [|discriminate].
  intros _. exists dlts, temp, d_file. repeat split.
Qed.

Lemma read_from_d_t_raise (to_datetime : string -> option Z)
    (dlts_read : outcome (list (dlts_row string)))
    (temperature_read : outcome (list (temp_row string)))
    (d_file_read : outcome string) (self self' : DataReader) (e : exn) :
  read_from_d_t to_datetime dlts_read temperature_read d_file_read self
    = (Raise e, self') ->
  self' = self.
Proof.
  unfold read_from_d_t. cbv zeta.
  match goal with
  | |- match ?m with Return _ => _ | Raise _ => _ end = _ -> _ =>
      destruct m as [merged|e']
  end; intros H; [discriminate H|]. injection H as _ <-. reflexivity.
Qed.

(** ** Date reconstruction *)

Lemma match_here_sound (p : list (ascii -> bool)) (s m : string) :
  match_here p s = Some m ->
  exists rest, s = (m ++ rest)%string /\ match_here p m = Some m.
Proof.
  revert s m. induction p as [|cls p IH]; intros s m H; simpl in H.
  - injection H as <-. exists s. split; reflexivity.
  - destruct s as [|a s]; [discriminate H|].
    destruct (cls a) eqn:Ea; [|discriminate H].
    destruct (match_here p s) as [m'|] eqn:E; [|discriminate H].
    injection H as <-. destruct (IH s m' E) as [rest [-> Hm]].
    exists rest. split; [reflexivity|]. simpl. rewrite Ea, Hm. reflexivity.
Qed.

Lemma match_here_complete (p : list (ascii -> bool)) (m rest : string) :
  match_here p m = Some m -> match_here p (m ++ rest) = Some m.
Proof.
  revert m. induction p as [|cls p IH]; intros m H; simpl in H.
  - injection H as <-. reflexivity.
  - destruct m as [|a m]; [discriminate H|].
    destruct (cls a) eqn:Ea; [|discriminate H].
    destruct (match_here p m) as [m'|] eqn:E; [|discriminate H].
    injection H as ->. simpl. rewrite Ea, (IH m E). reflexivity.
Qed.

Lemma findall_first_date (s d : string) (ds : list string) :
  re_findall s = d :: ds -> first_date s d.
Proof.
  unfold re_findall. induction s as [|a s IH]; intros H; [discriminate H|].
  cbn [findall_from] in H.
  destruct (match_here date_pattern (String a s)) as [m|] eqn:E.
  - injection H as -> _. destruct (match_here_sound _ _ _ E) as [rest [Hs Hd]].
    exists EmptyString, rest. split; [exact Hs|]. split; [exact Hd|].
    intros; simpl; lia.
  - destruct (IH H) as [pre [post [-> [Hd Hleft]]]].
    exists (String a pre), post. split; [reflexivity|]. split; [exact Hd|].
    intros pre' d' post' Hs Hd'. destruct pre' as [|a' pre'].
    + simpl in Hs. rewrite Hs, (match_here_complete _ d' post' Hd') in E.
      discriminate E.
    + simpl in Hs. injection Hs as _ Hs. simpl.
      specialize (Hleft pre' d' post' Hs Hd'). lia.
Qed.

Lemma findall_no_date (s : string) : re_findall s = [] -> no_date s.
Proof.
  unfold re_findall, no_date. induction s as [|a s IH]; intros H pre d post Hs Hd.
  - destruct pre; [|discriminate Hs]. destruct d; [|discriminate Hs].
    discriminate Hd.
  - cbn [findall_from] in H.
    destruct (match_here date_pattern (String a s)) as [m|] eqn:E;
      [discriminate H|].
    destruct pre as [|a' pre].
    + simpl in Hs. rewrite Hs, (match_here_complete _ d post Hd) in E.
      discriminate E.
    + simpl in Hs. injection Hs as _ Hs. exact (IH H pre d post Hs Hd).
Qed.

Lemma append_assoc (a b c : string) :
  ((a ++ b) ++ c = a ++ b ++ c)%string.
Proof. induction a as [|x a IH]; simpl; [reflexivity | rewrite IH; reflexivity]. Qed.

Lemma series_add_list_one (col : list string) (d : string) :
  series_add_list col [d] = Return (map (fun c => (c ++ d)%string) col).
Proof.
  unfold series_add_list.
  destruct (Nat.eqb_spec (List.length col) (List.length [d])) as [E|_];
    [|reflexivity].
  destruct col as [|c [|c' col]]; try discriminate E. reflexivity.
Qed.

Lemma series_add_list_none (col : list string) :
  col <> [] -> exists e, series_add_list col [] = Raise e.
Proof.
  intros Hne. destruct col as [|c [|c' col]]; [contradiction Hne; reflexivity| |];
    eexists; reflexivity.
Qed.

Lemma series_add_list_none_value (col : list string) :
  col <> [] -> exists msg, series_add_list col [] = Raise (ValueError msg).
Proof.
  intros Hne. destruct col as [|c [|c' col]]; [contradiction Hne; reflexivity| |];
    eexists; reflexivity.
Qed.

Lemma timestamps_one_date (to_datetime : string -> option Z)
    (col : list string) (d : string) :
  timestamps to_datetime col [d] =
  to_datetime_series to_datetime (map (fun c => (c ++ " " ++ d)%string) col).
Proof.
  unfold timestamps. rewrite series_add_list_one. cbn [obind].
  rewrite map_map. f_equal. apply map_ext. intros c. apply append_assoc.
Qed.

(** ** One merged row per signal row *)

(** C1 as the claim has it does not hold.  With the empty temperature
    stream the join raises, so no merged table is produced; and a reader
    that holds two rows keeps its two row labels when three signal rows are
    read, so that the third signal row is dropped. *)
Lemma empty_temperature_or_filled_reader_drop_rows :
  ~ (exists merged,
        time_alignment_merge example_dlts [] = Return merged /\
        List.length merged = List.length example_dlts) /\
  ~ (List.length
       (data (snd (read_from_d_t strptime_two_digit (Return example_dlts_data)
                     (Return example_temperature_data) (Return example_d_file)
                     sample_reader))) = List.length example_dlts_data).
Proof.
  split.
  - intros [merged [H _]]. rewrite time_alignment_merge_empty in H.
    discriminate H.
  - vm_compute. discriminate.
Qed.

(** C1, amended: for every signal stream and every non-empty temperature
    stream whose rows fall in pairwise distinct seconds the merge returns;
    whenever the merge returns, its rows are the signal rows in their order,
    one each, with a temperature attached; and a reader created empty that
    returns from read_from_d_t holds exactly one row per signal row, in
    signal order, with that row's frequency and signal value. *)
Theorem merge_one_row_per_signal_row :
  forall (dlts_data : list (dlts_row Z)) (temperature_data : list (temp_row Z)),
    (temperature_data <> [] ->
     is_unique (map t_time temperature_data) = true ->
     exists merged, time_alignment_merge dlts_data temperature_data = Return merged) /\
    (forall merged,
        time_alignment_merge dlts_data temperature_data = Return merged ->
        map signal_of merged = dlts_data /\
        List.length merged = List.length dlts_data /\
        (forall i, option_map signal_of (nth_error merged i) = nth_error dlts_data i) /\
        map (fun r => (time r, frequency_hz r, dlts_v r))
            (setitem_columns merged (data init)) =
        map (fun d => (Some (d_time d), d_frequency_hz d, d_dlts_v d)) dlts_data) /\
    (forall to_datetime d_file (raw_dlts : list (dlts_row string))
            (raw_temp : list (temp_row string)) self',
        read_from_d_t to_datetime (Return raw_dlts) (Return raw_temp)
                      (Return d_file) init = (Return tt, self') ->
        List.length (data self') = List.length raw_dlts /\
        map (fun r => (frequency_hz r, dlts_v r)) (data self') =
        map (fun d => (d_frequency_hz d, d_dlts_v d)) raw_dlts /\
        exists dtimes,
          timestamps to_datetime (map d_time raw_dlts) (re_findall d_file)
            = Return dtimes /\
          map time (data self') = map Some dtimes).
Proof.
  intros dlts temp.
  assert (forall ds ts merged,
             time_alignment_merge ds ts = Return merged ->
             map signal_of merged = ds) as Hsig.
  { intros ds ts merged H.
    pose proof (time_alignment_merge_returns _ _ _ H) as Hu.
    pose proof (time_alignment_merge_nonempty _ _ _ H) as Hne.
    destruct (time_alignment_merge_unique ds ts Hu Hne) as [first [n [E _]]].
    rewrite E in H. injection H as <-. apply joined_signal. }
  split; [|split].
  - intros Hne Hu.
    destruct (time_alignment_merge_unique dlts temp Hu Hne) as [first [n [E _]]].
    eexists. exact E.
  - intros merged H. pose proof (Hsig _ _ _ H) as S.
    split; [exact S|]. split; [rewrite <- S; symmetry; apply length_map|].
    split; [intros i; rewrite <- nth_error_map, S; reflexivity|].
    cbn [init data]. unfold setitem_columns. rewrite map_map.
    rewrite <- S. rewrite map_map. apply map_ext. reflexivity.
  - intros to_datetime d_file raw_dlts raw_temp self' H.
    destruct (read_from_d_t_inv _ _ _ _ _ _ _ H)
      as [dtimes [ttimes [merged [Hd [Ht [Hm ->]]]]]].
    pose proof (timestamps_length _ _ _ _ Hd) as Hlen.
    rewrite length_map in Hlen.
    pose proof (Hsig _ _ _ Hm) as S.
    cbn [init data]. unfold setitem_columns.
    split; [|split].
    + rewrite length_map. rewrite <- (length_map signal_of), S.
      unfold with_times. rewrite length_map, length_combine. lia.
    + rewrite map_map.
      transitivity (map (fun d => (d_frequency_hz d, d_dlts_v d))
                        (map signal_of merged)).
      * rewrite map_map. apply map_ext. reflexivity.
      * rewrite S. apply with_times_map; [reflexivity | exact Hlen].
    + exists dtimes. split; [exact Hd|]. rewrite map_map.
      transitivity (map (fun d => Some (d_time d)) (map signal_of merged)).
      * rewrite map_map. apply map_ext. reflexivity.
      * rewrite S. rewrite <- (map_map d_time Some). f_equal.
        apply with_times_times; [reflexivity | exact Hlen].
Qed.

Example read_from_d_t_example :
  read_from_d_t strptime_two_digit (Return example_dlts_data)
                (Return example_temperature_data) (Return example_d_file) init =
  (Return tt,
   Reader (map (fun m => put_merged (Some m) nan_row)
               [Merged (on_2024_01_01 9 0 0) 1000 0.5 nan;
                Merged (on_2024_01_01 9 0 3) 500 0.25 300;
                Merged (on_2024_01_01 9 0 9) 250 0.125 nan])).
Proof. vm_compute. reflexivity. Qed.

(** Three signal rows against two temperature samples. *)
Lemma merge_one_row_per_signal_row_witness :
  (exists merged, time_alignment_merge example_dlts example_temp = Return merged) /\
  List.length (data (snd (read_from_d_t strptime_two_digit
                            (Return example_dlts_data)
                            (Return example_temperature_data)
                            (Return example_d_file) init))) = 3%nat.
Proof.
  destruct (merge_one_row_per_signal_row example_dlts example_temp)
    as [Hreturns [_ Hread]].
  split.
  - apply Hreturns; [discriminate | reflexivity].
  - apply (Hread strptime_two_digit example_d_file example_dlts_data
                 example_temperature_data).
    vm_compute. reflexivity.
Defined.

(** ** Empty streams *)

Lemma with_times_length {A B : Type} (mk : A -> Z -> B) (rows : list A)
    (times : list Z) :
  List.length times = List.length rows ->
  List.length (with_times mk rows times) = List.length rows.
Proof.
  intros H. unfold with_times. rewrite length_map, length_combine. lia.
Qed.

Lemma read_from_d_t_no_temperature (to_datetime : string -> option Z)
    (dlts_read : outcome (list (dlts_row string))) (d_file_read : outcome string)
    (self : DataReader) :
  exists e,
    read_from_d_t to_datetime dlts_read (Return []) d_file_read self = (Raise e, self).
Proof.
  unfold read_from_d_t. cbv zeta.
  destruct dlts_read as [dlts|e]; cbn [obind]; [|exists e; reflexivity].
  destruct d_file_read as [d_file|e]; cbn [obind]; [|exists e; reflexivity].
  destruct (timestamps to_datetime (map d_time dlts) (re_findall d_file))
    as [dtimes|e]; cbn [obind]; [|exists e; reflexivity].
  destruct (timestamps to_datetime (map t_time []) (re_findall d_file))
    as [ttimes|e] eqn:Et; cbn [obind]; [|exists e; reflexivity].
  apply timestamps_length in Et. simpl in Et. destruct ttimes; [|discriminate Et].
  cbn [with_times combine map]. rewrite time_alignment_merge_empty.
  eexists. reflexivity.
Qed.

(** C3 as the claim has it does not hold: with the empty temperature
    stream and three signal rows the merge raises instead of yielding three
    rows with null temperature. *)
Lemma empty_temperature_stream_raises :
  ~ (exists merged,
        time_alignment_merge example_dlts [] = Return merged /\
        List.length merged = 3%nat /\
        Forall (fun m => is_nan (m_temperature_k m) = true) merged).
Proof.
  intros [merged [H _]]. rewrite time_alignment_merge_empty in H.
  discriminate H.
Qed.

(** C3, amended: with an empty temperature stream the merge raises a
    ValueError for a signal stream of any length (the resampled frame has
    no row and two index levels named time, and the join cannot resolve the
    key), and read_from_d_t raises and leaves the reader as it was; with an
    empty signal stream and a non-empty temperature stream whose rows fall
    in pairwise distinct seconds the merge yields the empty table rather
    than an error. *)
Theorem merge_with_empty_stream :
  forall (dlts_data : list (dlts_row Z)),
    resample_S_ffill [] = Return [] /\
    time_levels [] = 2%nat /\
    time_alignment_merge dlts_data [] =
      Raise (ValueError "The name time occurs multiple times, use a level number") /\
    (forall to_datetime dlts_read d_file_read self,
        exists e,
          read_from_d_t to_datetime dlts_read (Return []) d_file_read self
            = (Raise e, self)) /\
    (forall temperature_data,
        temperature_data <> [] ->
        is_unique (map t_time temperature_data) = true ->
        time_alignment_merge [] temperature_data = Return []).
Proof.
  intros dlts. repeat apply conj; try reflexivity.
  - intros. apply read_from_d_t_no_temperature.
  - intros temp Hne Hu.
    destruct (time_alignment_merge_unique [] temp Hu Hne) as [first [n [E _]]].
    exact E.
Qed.

(** An empty signal stream against the two temperature samples. *)
Lemma merge_with_empty_stream_witness :
  time_alignment_merge [] example_temp = Return [].
Proof.
  destruct (merge_with_empty_stream []) as [_ [_ [_ [_ H]]]].
  apply H; [discriminate | reflexivity].
Defined.

(** ** Two temperature rows in one second *)

Lemma duplicate_label_not_unique (l : list Z) (i j : nat) (t : Z) :
  (i < j)%nat -> nth_error l i = Some t -> nth_error l j = Some t ->
  is_unique l = false.
Proof.
  intros Hij Ha Hb.
  destruct (is_unique l) eqn:E; [|reflexivity].
  apply is_unique_NoDup in E. rewrite NoDup_nth_error in E.
  assert (i < List.length l)%nat as Hi by (apply nth_error_Some; congruence).
  specialize (E i j Hi). rewrite Ha, Hb in E. specialize (E eq_refl). lia.
Qed.

Lemma duplicate_not_unique (temp : list (temp_row Z)) (i j : nat)
    (a b : temp_row Z) :
  (i < j)%nat -> nth_error temp i = Some a -> nth_error temp j = Some b ->
  t_time a = t_time b ->
  is_unique (map t_time temp) = false.
Proof.
  intros Hij Ha Hb Hab.
  apply (duplicate_label_not_unique _ i j (t_time a) Hij);
    rewrite nth_error_map; [rewrite Ha | rewrite Hb, Hab]; reflexivity.
Qed.

(** C9 as the claim has it does not hold: for two rows in the second
    09:00:02 the merge raises, so no grid holds the later value. *)
Lemma duplicate_second_no_last_write_wins :
  ~ (exists merged,
        time_alignment_merge
          [DltsRow (on_2024_01_01 9 0 2) 1000 0.5]
          [TempRow (on_2024_01_01 9 0 2) 300; TempRow (on_2024_01_01 9 0 2) 301]
        = Return merged /\
        map m_temperature_k merged = [301%float]).
Proof.
  intros [merged [H _]]. vm_compute in H. discriminate H.
Qed.

(** C9, amended: when two rows of the temperature stream carry the same
    second, building the grid raises a ValueError (the resampled index
    cannot be reindexed on duplicate labels), whatever the signal stream; no
    merged table is produced, and read_from_d_t raises and leaves the reader
    as it was. *)
Theorem duplicate_second_raises :
  forall (dlts_data : list (dlts_row Z)) (temperature_data : list (temp_row Z))
         (i j : nat) (a b : temp_row Z),
    (i < j)%nat ->
    nth_error temperature_data i = Some a ->
    nth_error temperature_data j = Some b ->
    t_time a = t_time b ->
    resample_S_ffill temperature_data =
      Raise (ValueError "cannot reindex on an axis with duplicate labels") /\
    time_alignment_merge dlts_data temperature_data =
      Raise (ValueError "cannot reindex on an axis with duplicate labels") /\
    (forall to_datetime d_file (raw_dlts : list (dlts_row string))
            (raw_temp : list (temp_row string)) ttimes self,
        timestamps to_datetime (map t_time raw_temp) (re_findall d_file)
          = Return ttimes ->
        map t_time temperature_data = ttimes ->
        exists e,
          read_from_d_t to_datetime (Return raw_dlts) (Return raw_temp) (Return d_file) self = (Raise e, self)).
Proof.
  intros dlts temp i j a b Hij Ha Hb Hab.
  pose proof (duplicate_not_unique temp i j a b Hij Ha Hb Hab) as Hdup.
  pose proof (time_alignment_merge_duplicate dlts temp Hdup) as H.
  split; [|split; [exact H|]].
  - apply resample_S_ffill_duplicate. exact Hdup.
  - intros to_datetime d_file raw_dlts raw_temp ttimes self Ht Htimes.
    unfold read_from_d_t. cbv zeta. cbn [obind].
    destruct (timestamps to_datetime (map d_time raw_dlts) (re_findall d_file))
      as [dtimes|e]; cbn [obind]; [|exists e; reflexivity].
    rewrite Ht. cbn [obind].
    rewrite time_alignment_merge_duplicate; [eexists; reflexivity|].
    rewrite with_times_times; [|reflexivity|].
    + rewrite <- Htimes. exact Hdup.
    + apply timestamps_length in Ht. rewrite length_map in Ht. exact Ht.
Qed.

(** 300 K and 301 K, both at 09:00:02. *)
Lemma duplicate_second_raises_witness :
  time_alignment_merge
    [DltsRow (on_2024_01_01 9 0 2) 1000 0.5]
    [TempRow (on_2024_01_01 9 0 2) 300; TempRow (on_2024_01_01 9 0 2) 301] =
  Raise (ValueError "cannot reindex on an axis with duplicate labels").
Proof.
  apply (duplicate_second_raises
           [DltsRow (on_2024_01_01 9 0 2) 1000 0.5]
           [TempRow (on_2024_01_01 9 0 2) 300; TempRow (on_2024_01_01 9 0 2) 301]
           0%nat 1%nat
           (TempRow (on_2024_01_01 9 0 2) 300)
           (TempRow (on_2024_01_01 9 0 2) 301));
    [lia | reflexivity | reflexivity | reflexivity].
Defined.

(** ** Forward fill, seen from a signal row *)

(** C2 as the claim has it does not hold: in its scenario the grid is the
    single second 09:00:02, so the row at 09:00:05 lies beyond the grid and
    gets no temperature, not 300. *)
Lemma scenario_no_fill_past_last_sample :
  ~ (exists m0 m1,
        time_alignment_merge
          [DltsRow (on_2024_01_01 9 0 0) 1000 0.5;
           DltsRow (on_2024_01_01 9 0 5) 500 0.25]
          [TempRow (on_2024_01_01 9 0 2) 300]
        = Return [m0; m1] /\
        is_nan (m_temperature_k m0) = true /\
        m_temperature_k m1 = 300%float).
Proof.
  intros [m0 [m1 [H [_ H1]]]]. vm_compute in H.
  injection H as _ <-. cbn [m_temperature_k] in H1.
  apply (nan_neq 300%float); [reflexivity | exact H1].
Qed.

(** C2, amended: in a merged table, the row of the signal row at time t
    carries the temperature of the most recent temperature sample at or
    before t when t lies between the first and the last temperature
    timestamp (never a later sample, never a value between samples), and NaN
    when t is before every temperature sample or after every temperature
    sample.  With signal rows at 09:00:00 and 09:00:05 and the single sample
    09:00:02 -> 300 K the merge yields NaN at both rows. *)
Theorem merge_forward_fill :
  (forall (dlts_data : list (dlts_row Z)) (temperature_data : list (temp_row Z))
          (merged : list merged_row),
      time_alignment_merge dlts_data temperature_data = Return merged ->
      forall (i : nat) (d : dlts_row Z),
        nth_error dlts_data i = Some d ->
        exists m,
          nth_error merged i = Some m /\ signal_of m = d /\
          ((exists a, In a temperature_data /\ t_time a <= d_time d) ->
           (exists b, In b temperature_data /\ d_time d <= t_time b) ->
           exists a, latest_at_or_before temperature_data (d_time d) a /\
                     m_temperature_k m = t_temperature_k a) /\
          ((forall a, In a temperature_data -> d_time d < t_time a) ->
           m_temperature_k m = nan) /\
          ((forall a, In a temperature_data -> t_time a < d_time d) ->
           m_temperature_k m = nan)) /\
  (forall f0 v0 f1 v1 : float,
      time_alignment_merge
        [DltsRow (on_2024_01_01 9 0 0) f0 v0; DltsRow (on_2024_01_01 9 0 5) f1 v1]
        [TempRow (on_2024_01_01 9 0 2) 300]
      = Return [Merged (on_2024_01_01 9 0 0) f0 v0 nan;
                Merged (on_2024_01_01 9 0 5) f1 v1 nan]).
Proof.
  split; [|intros; vm_compute; reflexivity].
  intros dlts temp merged H i d Hd.
  pose proof (time_alignment_merge_returns _ _ _ H) as Hu.
  pose proof (time_alignment_merge_nonempty _ _ _ H) as Hne.
  destruct (time_alignment_merge_unique dlts temp Hu Hne)
    as [first [n [E [Hnil [Hrange Hends]]]]].
  rewrite E in H. injection H as <-.
  exists (joined (filled temp) first n d).
  split; [rewrite nth_error_map, Hd; reflexivity|].
  split; [destruct d; reflexivity|].
  unfold joined. cbn [m_temperature_k]. repeat apply conj.
  - intros [a [Ha Hle]] [b [Hb Hge]].
    pose proof (Hrange a Ha). pose proof (Hrange b Hb).
    destruct (Z.leb_spec first (d_time d)); [|lia].
    destruct (Z.ltb_spec (d_time d) (first + Z.of_nat n)); [|lia].
    cbn [andb]. apply filled_spec. exists a. split; assumption.
  - intros Hbefore. destruct temp as [|x temp].
    + rewrite (Hnil eq_refl). replace (first + Z.of_nat 0) with first by lia.
      destruct (Z.leb_spec first (d_time d)),
        (Z.ltb_spec (d_time d) first); try reflexivity; lia.
    + destruct Hends as [[a [Ha Hfirst]] _]; [discriminate|].
      specialize (Hbefore a Ha).
      destruct (Z.leb_spec first (d_time d)); [lia|]. reflexivity.
  - intros Hafter. destruct temp as [|x temp].
    + rewrite (Hnil eq_refl). replace (first + Z.of_nat 0) with first by lia.
      destruct (Z.leb_spec first (d_time d)),
        (Z.ltb_spec (d_time d) first); try reflexivity; lia.
    + destruct Hends as [_ [b [Hb Hlast]]]; [discriminate|].
      specialize (Hafter b Hb).
      destruct (Z.ltb_spec (d_time d) (first + Z.of_nat n)); [lia|].
      rewrite andb_false_r. reflexivity.
Qed.

(** The signal row at 09:00:03 between the samples at 09:00:02 and
    09:00:05. *)
Lemma merge_forward_fill_witness :
  exists m,
    nth_error [Merged (on_2024_01_01 9 0 0) 1000 0.5 nan;
               Merged (on_2024_01_01 9 0 3) 500 0.25 300;
               Merged (on_2024_01_01 9 0 9) 250 0.125 nan] 1 = Some m /\
    signal_of m = DltsRow (on_2024_01_01 9 0 3) 500 0.25 /\
    exists a, latest_at_or_before example_temp (on_2024_01_01 9 0 3) a /\
              m_temperature_k m = t_temperature_k a.
Proof.
  destruct merge_forward_fill as [H _].
  assert (time_alignment_merge example_dlts example_temp =
          Return [Merged (on_2024_01_01 9 0 0) 1000 0.5 nan;
                  Merged (on_2024_01_01 9 0 3) 500 0.25 300;
                  Merged (on_2024_01_01 9 0 9) 250 0.125 nan]) as E
      by (vm_compute; reflexivity).
  destruct (H example_dlts example_temp _ E 1%nat
              (DltsRow (on_2024_01_01 9 0 3) 500 0.25) eq_refl)
    as [m [Hm [Hs [Hin _]]]].
  exists m. split; [exact Hm|]. split; [exact Hs|].
  apply Hin.
  - exists (TempRow (on_2024_01_01 9 0 2) 300). split.
    + left. reflexivity.
    + vm_compute. discriminate.
  - exists (TempRow (on_2024_01_01 9 0 5) 301). split.
    + right. left. reflexivity.
    + vm_compute. discriminate.
Defined.

(** ** Which date each row gets *)

(** With exactly one match the date is the leftmost date of the file and
    every row of a column is combined with it. *)
Lemma one_date_for_every_row (to_datetime : string -> option Z)
    (d_file d : string) (col : list string) :
  re_findall d_file = [d] ->
  first_date d_file d /\
  timestamps to_datetime col (re_findall d_file) =
    to_datetime_series to_datetime (map (fun c => (c ++ " " ++ d)%string) col).
Proof.
  intros Hd. split; [apply (findall_first_date _ _ _ Hd)|].
  rewrite Hd. apply timestamps_one_date.
Qed.

(** Without a date in the file the call raises, whatever the streams. *)
Lemma no_date_raises (to_datetime : string -> option Z)
    (dlts_read : outcome (list (dlts_row string)))
    (temperature_read : outcome (list (temp_row string)))
    (d_file : string) (self : DataReader) :
  re_findall d_file = [] ->
  exists e,
    read_from_d_t to_datetime dlts_read temperature_read (Return d_file) self
      = (Raise e, self).
Proof.
  intros Hnone. unfold read_from_d_t. cbv zeta.
  destruct dlts_read as [dlts|e]; cbn [obind]; [|exists e; reflexivity].
  destruct temperature_read as [temp|e]; cbn [obind]; [|exists e; reflexivity].
  rewrite Hnone.
  destruct (timestamps to_datetime (map d_time dlts) []) as [dtimes|e];
    cbn [obind]; [|exists e; reflexivity].
  destruct temp as [|r temp].
  - change (timestamps to_datetime (map t_time []) []) with (@Return (list Z) []).
    cbn [obind with_times combine map]. rewrite time_alignment_merge_empty.
    eexists. reflexivity.
  - unfold timestamps at 1.
    destruct (series_add_list_none
                (map (fun c => (c ++ " ")%string) (map t_time (r :: temp))))
      as [e E]; [discriminate|].
    rewrite E. cbn [obind]. exists e. reflexivity.
Qed.

(** C4: the code at a file that carries a date on each of its two rows.
    The search returns both dates, the list is added to the time column
    cell by cell, and the second row of either stream is stamped with the
    second date of the file, not with the first; read into a reader created
    empty, the second row lies on 02.01.2024.  At a file without a date the
    search returns the empty list and the call raises a ValueError, whatever
    the two streams hold, and leaves the reader as it was. *)
Theorem date_str_keeps_every_match :
  re_findall midnight_d_file = ["01.01.2024"; "02.01.2024"]%string /\
  re_findall undated_d_file = [] /\
  (forall to_datetime dlts_data temperature_data self,
      exists msg,
        read_from_d_t to_datetime (Return dlts_data) (Return temperature_data)
                      (Return undated_d_file) self
        = (Raise (ValueError msg), self)) /\
  (forall to_datetime : string -> option Z,
      timestamps to_datetime (map d_time midnight_dlts_data)
                 (re_findall midnight_d_file) =
      to_datetime_series to_datetime
        ["23:59:59 01.01.2024"; "00:00:01 02.01.2024"]%string /\
      timestamps to_datetime (map t_time midnight_temperature_data)
                 (re_findall midnight_d_file) =
      to_datetime_series to_datetime
        ["23:59:58 01.01.2024"; "00:00:02 02.01.2024"]%string) /\
  map time (data (snd (read_from_d_t strptime_two_digit
                         (Return midnight_dlts_data)
                         (Return midnight_temperature_data)
                         (Return midnight_d_file) init))) =
  [Some (on_2024_01_01 23 59 59); Some (on_2024_01_01 24 0 1)].
Proof.
  split; [vm_compute; reflexivity|].
  split; [vm_compute; reflexivity|].
  split; [|split].
  - intros to_datetime dlts temp self.
    assert (Hnone : re_findall undated_d_file = []) by (vm_compute; reflexivity).
    unfold read_from_d_t. cbv zeta. cbn [obind]. rewrite Hnone.
    destruct dlts as [|d dlts].
    + change (timestamps to_datetime (map d_time []) []) with (@Return (list Z) []).
      cbn [obind]. destruct temp as [|r temp].
      * change (timestamps to_datetime (map t_time []) []) with (@Return (list Z) []).
        cbn [obind with_times combine map]. rewrite time_alignment_merge_empty.
        eexists. reflexivity.
      * unfold timestamps at 1.
        destruct (series_add_list_none_value
                    (map (fun c => (c ++ " ")%string) (map t_time (r :: temp))))
          as [msg E]; [discriminate|].
        rewrite E. cbn [obind]. exists msg. reflexivity.
    + unfold timestamps at 1.
      destruct (series_add_list_none_value
                  (map (fun c => (c ++ " ")%string) (map d_time (d :: dlts))))
        as [msg E]; [discriminate|].
      rewrite E. cbn [obind]. exists msg. reflexivity.
  - intros to_datetime. split; reflexivity.
  - vm_compute. reflexivity.
Qed.

(** ** The calibration columns along a run *)

Lemma uniform_map_const {A : Type} (col : row -> A) (upd : row -> row) (v : A)
    (rows : list row) :
  (forall r, col (upd r) = v) -> uniform col (map upd rows).
Proof.
  intros H r r' Hr Hr'. apply in_map_iff in Hr, Hr'.
  destruct Hr as [x [<- _]], Hr' as [x' [<- _]]. rewrite !H. reflexivity.
Qed.

Lemma uniform_map_frame {A : Type} (col : row -> A) (upd : row -> row)
    (rows : list row) :
  (forall r, col (upd r) = col r) -> uniform col rows ->
  uniform col (map upd rows).
Proof.
  intros H U r r' Hr Hr'. apply in_map_iff in Hr, Hr'.
  destruct Hr as [x [<- Hx]], Hr' as [x' [<- Hx']]. rewrite !H.
  apply U; assumption.
Qed.

Lemma uniform_setitem_columns {A : Type} (col : row -> A)
    (merged : list merged_row) (rows : list row) :
  (forall m r, col (put_merged m r) = col r) -> uniform col rows ->
  uniform col (setitem_columns merged rows).
Proof.
  intros H U. unfold setitem_columns. destruct rows as [|r0 rows].
  - intros r r' Hr Hr'. apply in_map_iff in Hr, Hr'.
    destruct Hr as [m [<- _]], Hr' as [m' [<- _]]. rewrite !H. reflexivity.
  - remember (r0 :: rows) as l eqn:El. clear El.
    intros r r' Hr Hr'. apply in_map_iff in Hr, Hr'.
    destruct Hr as [[i x] [<- Hx]], Hr' as [[i' x'] [<- Hx']].
    rewrite !H. apply in_combine_r in Hx, Hx'. apply U; assumption.
Qed.

Lemma setitem_columns_keeps_labels (merged : list merged_row) (rows : list row) :
  rows <> [] ->
  List.length (setitem_columns merged rows) = List.length rows.
Proof.
  intros Hne. unfold setitem_columns. destruct rows as [|r rows];
    [contradiction Hne; reflexivity|].
  rewrite length_map, length_combine, length_seq. lia.
Qed.

Ltac uniform_column :=
  first [ assumption
        | apply uniform_map_frame; [intros; reflexivity | assumption]
        | eapply uniform_map_const; intros; cbn; reflexivity ].

Lemma set_column_calibration_uniform (upd : row -> row) (self : DataReader) :
  calibration_uniform (data self) ->
  (exists v, upd = with_bs v) \/ (exists v, upd = with_ls v) \/
  (exists v, upd = with_f_pulse v) \/ (exists v, upd = with_u1 v) \/
  (exists v, upd = with_ur v) \/ (exists v, upd = with_time_between_meas v) \/
  (exists v, upd = with_integral_time v) \/ (exists v, upd = with_specimen_name v) \/
  (exists f, upd = fun r => with_dlts_pf (f r) r) ->
  calibration_uniform (data (set_column upd self)).
Proof.
  unfold calibration_uniform, set_column. cbn [data].
  intros [U1 [U2 [U3 [U4 [U5 [U6 [U7 U8]]]]]]] Hupd.
  repeat (destruct Hupd as [[v ->]|Hupd]);
    [ .. | destruct Hupd as [f ->] ]; repeat apply conj; uniform_column.
Qed.

(** X14: in every reader reached from DataReader() by read_from_d_t, the
    setters and compute_dlts_pf, returning or raising, each calibration
    column holds one value across all rows. *)
Lemma reachable_calibration_uniform (self : DataReader) :
  reachable self -> calibration_uniform (data self).
Proof.
  induction 1 as [|c self Hreach IH].
  - repeat split; intros r r' [].
  - destruct c; cbn [run].
    + destruct (read_from_d_t to_datetime dlts_read temperature_read d_file_read self)
        as [[[]|e] self'] eqn:E; cbn [snd].
      * destruct (read_from_d_t_reads _ _ _ _ _ _ _ E) as [dl [tp [tx [-> [-> ->]]]]].
          destruct (read_from_d_t_inv _ _ _ _ _ _ _ E) as [? [? [merged [_ [_ [_ ->]]]]]].
        cbn [data]. destruct IH as [U1 [U2 [U3 [U4 [U5 [U6 [U7 U8]]]]]]].
        repeat apply conj; apply uniform_setitem_columns;
          first [assumption | intros [m|] r; reflexivity].
      * rewrite (read_from_d_t_raise _ _ _ _ _ _ _ E). exact IH.
    + apply set_column_calibration_uniform; [exact IH|]. do 7 right. left. eauto.
    + destruct (set_bs_cases v self) as [[_ ->]|[_ ->]]; [|exact IH].
      apply set_column_calibration_uniform; [exact IH|]. left. eauto.
    + destruct (set_ls_cases v self) as [[_ ->]|[_ ->]]; [|exact IH].
      apply set_column_calibration_uniform; [exact IH|]. right. left. eauto.
    + apply set_column_calibration_uniform; [exact IH|]. do 2 right. left. eauto.
    + apply set_column_calibration_uniform; [exact IH|]. do 3 right. left. eauto.
    + apply set_column_calibration_uniform; [exact IH|]. do 4 right. left. eauto.
    + apply set_column_calibration_uniform; [exact IH|]. do 5 right. left. eauto.
    + destruct (set_integral_time_cases v self) as [[_ ->]|[_ ->]]; [|exact IH].
      apply set_column_calibration_uniform; [exact IH|]. do 6 right. left. eauto.
    + apply (set_column_calibration_uniform (fun r => with_dlts_pf (pf_of r) r));
        [exact IH|]. do 8 right. eauto.
Qed.

(** ** The methods on concrete inputs *)

(** [np.nan] is accepted by identity; a NaN that is another object is compared
    with [==] and rejected. *)
Example set_bs_np_nan :
  set_bs np_nan sample_reader =
  (Return tt, set_column (with_bs nan) sample_reader).
Proof. reflexivity. Qed.

Example set_bs_other_nan :
  fst (set_bs (pyval nan) sample_reader) =
  Raise (ValueError "bs value must be 1, 10, 100, 1000 or NaN").
Proof. reflexivity. Qed.

(** A second pair of files read into a reader that holds two rows keeps the
    two row labels: the third signal row is not stored. *)
Example read_from_d_t_into_filled_reader :
  List.length (data (snd (read_from_d_t strptime_two_digit
                            (Return example_dlts_data) (Return example_temperature_data) (Return example_d_file)
                            sample_reader))) = 2%nat.
Proof. vm_compute. reflexivity. Qed.

(** * Further properties of the methods *)

(** ** What the validated setters accept *)

Lemma eqb_nan_l (x : float) : PrimFloat.eqb nan x = false.
Proof.
  rewrite eqb_spec, Prim2SF_nan. unfold SFeqb, SFcompare. reflexivity.
Qed.

Lemma py_in_accepted (set : list float) (v : pyfloat) :
  py_in v (map pyval set ++ [np_nan]) = accepted set v.
Proof.
  unfold py_in. rewrite existsb_app.
  assert (forall f, existsb (fun a => py_is (pyval f) a || py_eq (pyval f) a)
                            (map pyval set) = existsb (PrimFloat.eqb f) set) as Hf.
  { intros f. induction set as [|c set IH]; [reflexivity|].
    cbn [map existsb]. rewrite IH. reflexivity. }
  destruct v as [|f].
  - cbn [existsb py_is orb accepted]. apply orb_true_r.
  - rewrite Hf. cbn [existsb py_is orb accepted]. unfold py_eq.
    cbn [float_of]. rewrite eqb_nan_r, !orb_false_r. reflexivity.
Qed.

Lemma nan_not_listed (set : list float) (f : float) :
  is_nan f = true -> existsb (PrimFloat.eqb f) set = false.
Proof.
  intros H. apply is_nan_eq in H. subst f.
  induction set as [|c set IH]; simpl; [reflexivity|].
  rewrite eqb_nan_l, IH. reflexivity.
Qed.

(** X1: set_bs, set_ls and set_integral_time return normally exactly for
    the object np.nan and for floats equal to a listed number; a NaN that is
    not the object np.nan is rejected like any other value. *)
Theorem validated_setters_accept_exactly :
  forall (v : pyfloat) (self : DataReader),
    (fst (set_bs v self) = Return tt <->
     accepted [1; 10; 100; 1000]%float v = true) /\
    (fst (set_ls v self) = Return tt <->
     accepted [1; 2; 5; 10; 20; 50; 100; 200; 500; 1000]%float v = true) /\
    (fst (set_integral_time v self) = Return tt <->
     accepted [0.3; 1; 3; 10; 30]%float v = true) /\
    (forall f, v = pyval f -> is_nan f = true ->
       fst (set_bs v self) <> Return tt /\
       fst (set_ls v self) <> Return tt /\
       fst (set_integral_time v self) <> Return tt).
Proof.
  intros v self.
  pose proof (py_in_accepted [1; 10; 100; 1000]%float v) as Hb.
  pose proof (py_in_accepted [1; 2; 5; 10; 20; 50; 100; 200; 500; 1000]%float v) as Hl.
  pose proof (py_in_accepted [0.3; 1; 3; 10; 30]%float v) as Hi.
  change (map pyval [1; 10; 100; 1000]%float ++ [np_nan])
    with (map lit_val bs_allowed_values) in Hb.
  change (map pyval [1; 2; 5; 10; 20; 50; 100; 200; 500; 1000]%float ++ [np_nan])
    with (map lit_val ls_allowed_values) in Hl.
  change (map pyval [0.3; 1; 3; 10; 30]%float ++ [np_nan])
    with (map lit_val integral_time_allowed_values) in Hi.
  assert (fst (set_bs v self) = Return tt <->
          accepted [1; 10; 100; 1000]%float v = true) as Rb.
  { rewrite <- Hb. destruct (set_bs_cases v self) as [[E ->]|[E ->]];
      rewrite E; simpl; split; congruence. }
  assert (fst (set_ls v self) = Return tt <->
          accepted [1; 2; 5; 10; 20; 50; 100; 200; 500; 1000]%float v = true) as Rl.
  { rewrite <- Hl. destruct (set_ls_cases v self) as [[E ->]|[E ->]];
      rewrite E; simpl; split; congruence. }
  assert (fst (set_integral_time v self) = Return tt <->
          accepted [0.3; 1; 3; 10; 30]%float v = true) as Ri.
  { rewrite <- Hi. destruct (set_integral_time_cases v self) as [[E ->]|[E ->]];
      rewrite E; simpl; split; congruence. }
  split; [exact Rb|]. split; [exact Rl|]. split; [exact Ri|].
  intros f -> Hnan. cbn [accepted] in Rb, Rl, Ri.
  rewrite (nan_not_listed _ f Hnan) in Rb.
  rewrite (nan_not_listed _ f Hnan) in Rl.
  rewrite (nan_not_listed _ f Hnan) in Ri.
  split; [|split]; intros H.
  - apply Rb in H. discriminate H.
  - apply Rl in H. discriminate H.
  - apply Ri in H. discriminate H.
Qed.

(** bs = 10.0 is accepted; the NaN that 0.0 / 0.0 gives is not. *)
Lemma validated_setters_accept_exactly_witness :
  fst (set_bs (pyval 10) sample_reader) = Return tt /\
  fst (set_bs (pyval (0 / 0)%float) sample_reader) <> Return tt.
Proof.
  split.
  - apply (validated_setters_accept_exactly (pyval 10) sample_reader).
    reflexivity.
  - destruct (validated_setters_accept_exactly (pyval (0 / 0)%float) sample_reader)
      as [_ [_ [_ H]]].
    apply (H (0 / 0)%float); reflexivity.
Defined.

(** ** Setters and the other columns *)

Lemma same_but_set_column (blank upd : row -> row) (self : DataReader) :
  (forall r, blank (upd r) = blank r) ->
  same_but blank (data self) (data (set_column upd self)).
Proof.
  intros H. unfold same_but, set_column. cbn [data]. rewrite map_map.
  apply map_ext. exact H.
Qed.

(** X2: each setter, whether it returns or raises, leaves every column
    other than its own as it was; in particular no setter recomputes
    dlts_pf, which keeps the values of the last compute_dlts_pf. *)
Theorem setters_change_one_column :
  forall (v : pyfloat) (name : string) (self : DataReader),
    same_but (with_bs nan) (data self) (data (snd (set_bs v self))) /\
    same_but (with_ls nan) (data self) (data (snd (set_ls v self))) /\
    same_but (with_f_pulse nan) (data self) (data (snd (set_f_pulse v self))) /\
    same_but (with_u1 nan) (data self) (data (snd (set_u1 v self))) /\
    same_but (with_ur nan) (data self) (data (snd (set_ur v self))) /\
    same_but (with_time_between_meas nan) (data self)
             (data (snd (set_time_between_meas v self))) /\
    same_but (with_integral_time nan) (data self)
             (data (snd (set_integral_time v self))) /\
    same_but (with_specimen_name None) (data self)
             (data (snd (set_specimen_name name self))) /\
    (forall c : call,
        match c with
        | call_read_from_d_t _ _ _ _ | call_compute_dlts_pf => True
        | _ => map dlts_pf (data (snd (run c self))) = map dlts_pf (data self)
        end).
Proof.
  intros v name self.
  assert (forall upd, (forall r, dlts_pf (upd r) = dlts_pf r) ->
            map dlts_pf (data (set_column upd self)) = map dlts_pf (data self))
    as Hpf.
  { intros upd H. unfold set_column. cbn [data]. rewrite map_map.
    apply map_ext. exact H. }
  repeat apply conj.
  - destruct (set_bs_cases v self) as [[_ ->]|[_ ->]]; cbn [snd];
      [apply same_but_set_column|]; reflexivity.
  - destruct (set_ls_cases v self) as [[_ ->]|[_ ->]]; cbn [snd];
      [apply same_but_set_column|]; reflexivity.
  - apply same_but_set_column. reflexivity.
  - apply same_but_set_column. reflexivity.
  - apply same_but_set_column. reflexivity.
  - apply same_but_set_column. reflexivity.
  - destruct (set_integral_time_cases v self) as [[_ ->]|[_ ->]]; cbn [snd];
      [apply same_but_set_column|]; reflexivity.
  - apply same_but_set_column. reflexivity.
  - intros c. destruct c; try exact I; cbn [run].
    + apply Hpf. reflexivity.
    + destruct (set_bs_cases v0 self) as [[_ ->]|[_ ->]]; cbn [snd];
        [apply Hpf|]; reflexivity.
    + destruct (set_ls_cases v0 self) as [[_ ->]|[_ ->]]; cbn [snd];
        [apply Hpf|]; reflexivity.
    + apply Hpf. reflexivity.
    + apply Hpf. reflexivity.
    + apply Hpf. reflexivity.
    + apply Hpf. reflexivity.
    + destruct (set_integral_time_cases v0 self) as [[_ ->]|[_ ->]]; cbn [snd];
        [apply Hpf|]; reflexivity.
Qed.

(** ** Setters one after the other *)

(** X3: the order in which bs and ls are set does not matter for the
    table, also when one of the two calls raises; a second set_bs that
    returns overwrites the first, and one that raises leaves the value of the
    first. *)
Theorem calibration_setters_compose :
  forall (b b' l : pyfloat) (self : DataReader),
    snd (set_ls l (snd (set_bs b self))) = snd (set_bs b (snd (set_ls l self))) /\
    (fst (set_bs b' self) = Return tt ->
     snd (set_bs b' (snd (set_bs b self))) = snd (set_bs b' self)) /\
    (fst (set_bs b' self) <> Return tt ->
     snd (set_bs b' (snd (set_bs b self))) = snd (set_bs b self)).
Proof.
  intros b b' l self. repeat apply conj.
  - destruct (set_bs_cases b self) as [[Eb Hb]|[Eb Hb]];
      destruct (set_ls_cases l self) as [[El Hl]|[El Hl]];
      rewrite Hb, Hl; cbn [snd].
    + destruct (set_ls_cases l (set_column (with_bs (float_of b)) self))
        as [[_ ->]|[E _]]; [|congruence].
      destruct (set_bs_cases b (set_column (with_ls (float_of l)) self))
        as [[_ ->]|[E _]]; [|congruence].
      cbn [snd]. unfold set_column. cbn [data]. rewrite !map_map. reflexivity.
    + destruct (set_ls_cases l (set_column (with_bs (float_of b)) self))
        as [[E _]|[_ ->]]; [congruence|].
      rewrite Hb. reflexivity.
    + destruct (set_bs_cases b (set_column (with_ls (float_of l)) self))
        as [[E _]|[_ ->]]; [congruence|].
      rewrite Hl. reflexivity.
    + rewrite Hb, Hl. reflexivity.
  - intros H.
    destruct (set_bs_cases b' self) as [[E' H']|[E' H']];
      [|rewrite H' in H; discriminate H].
    destruct (set_bs_cases b' (snd (set_bs b self))) as [[_ ->]|[E _]];
      [|congruence].
    rewrite H'. cbn [snd].
    destruct (set_bs_cases b self) as [[_ ->]|[_ ->]]; cbn [snd];
      [|reflexivity].
    unfold set_column. cbn [data]. rewrite map_map. reflexivity.
  - intros H.
    destruct (set_bs_cases b' self) as [[E' H']|[E' H']];
      [rewrite H' in H; contradiction H; reflexivity|].
    destruct (set_bs_cases b' (snd (set_bs b self))) as [[E _]|[_ ->]];
      [congruence|]. reflexivity.
Qed.

(** bs = 100 after bs = 10, and bs = 5 after bs = 10. *)
Lemma calibration_setters_compose_witness :
  snd (set_bs (pyval 100) (snd (set_bs (pyval 10) sample_reader))) =
    snd (set_bs (pyval 100) sample_reader) /\
  snd (set_bs (pyval 5) (snd (set_bs (pyval 10) sample_reader))) =
    snd (set_bs (pyval 10) sample_reader).
Proof.
  destruct (calibration_setters_compose (pyval 10) (pyval 100) np_nan sample_reader)
    as [_ [Hover _]].
  destruct (calibration_setters_compose (pyval 10) (pyval 5) np_nan sample_reader)
    as [_ [_ Hkeep]].
  split.
  - apply Hover. reflexivity.
  - apply Hkeep. vm_compute. discriminate.
Defined.

(** ** compute_dlts_pf again *)

(** X4: compute_dlts_pf is idempotent, and a setter that raises between
    two computations changes nothing: the derived column depends on dlts_v,
    bs and ls alone. *)
Theorem compute_dlts_pf_idempotent :
  forall (self : DataReader),
    snd (compute_dlts_pf (snd (compute_dlts_pf self))) = snd (compute_dlts_pf self) /\
    (forall v, fst (set_bs v self) <> Return tt ->
       snd (compute_dlts_pf (snd (set_bs v (snd (compute_dlts_pf self))))) =
       snd (compute_dlts_pf self)) /\
    (forall v,
       map dlts_pf (data (snd (compute_dlts_pf (snd (set_f_pulse v self))))) =
       map dlts_pf (data (snd (compute_dlts_pf self)))).
Proof.
  intros self.
  assert (snd (compute_dlts_pf (snd (compute_dlts_pf self))) =
          snd (compute_dlts_pf self)) as Hidem.
  { cbn [compute_dlts_pf snd data]. rewrite map_map. reflexivity. }
  split; [exact Hidem|]. split.
  - intros v H.
    destruct (set_bs_cases v (snd (compute_dlts_pf self))) as [[E _]|[_ ->]].
    + destruct (set_bs_cases v self) as [[_ H']|[E' _]]; [|congruence].
      rewrite H' in H. contradiction H. reflexivity.
    + exact Hidem.
  - intros v. cbn [compute_dlts_pf set_f_pulse set_column snd data].
    rewrite !map_map. reflexivity.
Qed.

(** bs = 5 between two computations. *)
Lemma compute_dlts_pf_idempotent_witness :
  snd (compute_dlts_pf (snd (set_bs (pyval 5) (snd (compute_dlts_pf sample_reader))))) =
  snd (compute_dlts_pf sample_reader).
Proof.
  destruct (compute_dlts_pf_idempotent sample_reader) as [_ [H _]].
  apply H. vm_compute. discriminate.
Defined.

(** ** Calibration before the data are read *)

Lemma run_rowless (c : call) : is_read c = false -> snd (run c init) = init.
Proof.
  destruct c; cbn [is_read run]; intros H; try discriminate H; try reflexivity.
  - destruct (set_bs_cases v init) as [[_ ->]|[_ ->]]; reflexivity.
  - destruct (set_ls_cases v init) as [[_ ->]|[_ ->]]; reflexivity.
  - destruct (set_integral_time_cases v init) as [[_ ->]|[_ ->]]; reflexivity.
Qed.

Lemma time_alignment_merge_length (dlts : list (dlts_row Z))
    (temp : list (temp_row Z)) (merged : list merged_row) :
  time_alignment_merge dlts temp = Return merged ->
  List.length merged = List.length dlts.
Proof.
  intros H. pose proof (time_alignment_merge_returns _ _ _ H) as Hu.
  pose proof (time_alignment_merge_nonempty _ _ _ H) as Hne.
  destruct (time_alignment_merge_unique dlts temp Hu Hne) as [first [n [E _]]].
  rewrite E in H. injection H as <-. apply length_map.
Qed.

Lemma read_from_d_t_merged_length (to_datetime : string -> option Z)
    (d_file : string) (dlts : list (dlts_row string))
    (temp : list (temp_row string)) (dtimes ttimes : list Z)
    (merged : list merged_row) :
  timestamps to_datetime (map d_time dlts) (re_findall d_file) = Return dtimes ->
  time_alignment_merge
    (with_times (fun r t => DltsRow t (d_frequency_hz r) (d_dlts_v r)) dlts dtimes)
    (with_times (fun r t => TempRow t (t_temperature_k r)) temp ttimes)
    = Return merged ->
  List.length merged = List.length dlts.
Proof.
  intros Hd Hm. rewrite (time_alignment_merge_length _ _ _ Hm).
  apply with_times_length. apply timestamps_length in Hd.
  rewrite length_map in Hd. exact Hd.
Qed.

(** X5: a setter or compute_dlts_pf called on a reader created empty
    leaves no trace, because there is no row to write to; the rows a later
    read_from_d_t stores have NaN in dlts_pf and in every calibration column
    (no specimen name), and compute_dlts_pf then gives NaN at every row. *)
Theorem calibration_before_read_is_lost :
  forall (c : call),
    is_read c = false ->
    snd (run c init) = init /\
    forall to_datetime d_file (dlts_data : list (dlts_row string))
           (temperature_data : list (temp_row string)) self',
      read_from_d_t to_datetime (Return dlts_data) (Return temperature_data) (Return d_file)
                    (snd (run c init)) = (Return tt, self') ->
      List.length (data self') = List.length dlts_data /\
      Forall uncalibrated (data self') /\
      Forall (fun r => dlts_pf r = nan) (data (snd (compute_dlts_pf self'))).
Proof.
  intros c Hc. split; [apply run_rowless; exact Hc|].
  intros to_datetime d_file dlts temp self' H.
  rewrite (run_rowless c Hc) in H.
  destruct (read_from_d_t_inv _ _ _ _ _ _ _ H)
    as [dtimes [ttimes [merged [Hd [_ [Hm ->]]]]]].
  cbn [init data setitem_columns]. split; [|split].
  - rewrite length_map.
    exact (read_from_d_t_merged_length _ _ _ _ _ _ _ Hd Hm).
  - apply Forall_forall. intros r Hr. apply in_map_iff in Hr.
    destruct Hr as [m [<- _]]. repeat split.
  - cbn [compute_dlts_pf snd data]. rewrite map_map. apply Forall_forall.
    intros r Hr. apply in_map_iff in Hr. destruct Hr as [m [<- _]].
    cbn [with_dlts_pf dlts_pf]. apply pf_of_nan. left. reflexivity.
Qed.

(** bs = 10 set before the example files are read. *)
Lemma calibration_before_read_is_lost_witness :
  Forall uncalibrated
    (data (snd (read_from_d_t strptime_two_digit (Return example_dlts_data) (Return example_temperature_data)
                  (Return example_d_file)
                  (snd (run (call_set_bs (pyval 10)) init))))).
Proof.
  destruct (calibration_before_read_is_lost (call_set_bs (pyval 10)) eq_refl)
    as [_ H].
  apply (H strptime_two_digit example_d_file example_dlts_data
           example_temperature_data).
  vm_compute. reflexivity.
Defined.

(** ** Reading into a reader that holds rows *)

Lemma nth_error_labelled {A B : Type} (F : nat -> A -> B) (rows : list A)
    (start i : nat) :
  nth_error (map (fun '(k, r) => F k r)
                 (combine (seq start (List.length rows)) rows)) i =
  option_map (F (start + i)%nat) (nth_error rows i).
Proof.
  revert start i. induction rows as [|r rows IH]; intros start i.
  - destruct i; reflexivity.
  - destruct i as [|i]; cbn [List.length seq combine map nth_error option_map].
    + rewrite Nat.add_0_r. reflexivity.
    + rewrite IH. rewrite Nat.add_succ_r. reflexivity.
Qed.

Lemma setitem_columns_nth (merged : list merged_row) (rows : list row) (i : nat) :
  rows <> [] ->
  nth_error (setitem_columns merged rows) i =
  option_map (put_merged (nth_error merged i)) (nth_error rows i).
Proof.
  intros Hne. unfold setitem_columns. destruct rows as [|r rows];
    [contradiction Hne; reflexivity|].
  rewrite (nth_error_labelled (fun k r => put_merged (nth_error merged k) r)).
  reflexivity.
Qed.

Lemma same_but_setitem_columns (merged : list merged_row) (rows : list row) :
  rows <> [] ->
  same_but (put_merged None) rows (setitem_columns merged rows).
Proof.
  intros Hne. unfold same_but.
  apply nth_error_ext. intros i.
  rewrite !nth_error_map, (setitem_columns_nth _ _ _ Hne).
  destruct (nth_error rows i) as [r|]; [|reflexivity].
  cbn [option_map]. destruct (nth_error merged i); reflexivity.
Qed.

(** X6: when read_from_d_t returns, the merged table of the two streams
    is stored by row label.  A reader that had no row holds the merged rows,
    one per signal row, in order; a reader that had rows keeps exactly its
    rows: row i takes time, frequency, signal and temperature of merged row
    i, or NaT and NaN when the merged table is shorter, merged rows beyond
    the old row count are not stored, and dlts_pf and the calibration
    columns are left as they were (dlts_pf is not recomputed). *)
Theorem read_from_d_t_row_labels :
  forall to_datetime d_file (dlts_data : list (dlts_row string))
         (temperature_data : list (temp_row string)) (self self' : DataReader),
    read_from_d_t to_datetime (Return dlts_data) (Return temperature_data)
                  (Return d_file) self = (Return tt, self') ->
    exists dtimes ttimes merged,
      timestamps to_datetime (map d_time dlts_data) (re_findall d_file)
        = Return dtimes /\
      timestamps to_datetime (map t_time temperature_data) (re_findall d_file)
        = Return ttimes /\
      time_alignment_merge
        (with_times (fun r t => DltsRow t (d_frequency_hz r) (d_dlts_v r))
                    dlts_data dtimes)
        (with_times (fun r t => TempRow t (t_temperature_k r))
                    temperature_data ttimes)
        = Return merged /\
      List.length merged = List.length dlts_data /\
      (data self = [] ->
       data self' = map (fun m => put_merged (Some m) nan_row) merged) /\
      (data self <> [] ->
       List.length (data self') = List.length (data self) /\
       same_but (put_merged None) (data self) (data self') /\
       forall i r, nth_error (data self) i = Some r ->
                   nth_error (data self') i = Some (put_merged (nth_error merged i) r)).
Proof.
  intros to_datetime d_file dlts temp self self' H.
  destruct (read_from_d_t_inv _ _ _ _ _ _ _ H)
    as [dtimes [ttimes [merged [Hd [Ht [Hm ->]]]]]].
  exists dtimes, ttimes, merged.
  split; [exact Hd|]. split; [exact Ht|]. split; [exact Hm|].
  split; [exact (read_from_d_t_merged_length _ _ _ _ _ _ _ Hd Hm)|].
  cbn [data]. split.
  - intros ->. reflexivity.
  - intros Hne. split; [apply setitem_columns_keeps_labels; exact Hne|].
    split; [apply same_but_setitem_columns; exact Hne|].
    intros i r Hr. rewrite (setitem_columns_nth _ _ _ Hne), Hr. reflexivity.
Qed.

(** The three-row example files read into the two-row table. *)
Lemma read_from_d_t_row_labels_witness :
  exists merged,
    time_alignment_merge example_dlts example_temp = Return merged /\
    List.length merged = 3%nat /\
    List.length (data (snd (read_from_d_t strptime_two_digit
                              (Return example_dlts_data)
                              (Return example_temperature_data)
                              (Return example_d_file) sample_reader))) = 2%nat /\
    forall i r, nth_error (data sample_reader) i = Some r ->
      nth_error (data (snd (read_from_d_t strptime_two_digit
                              (Return example_dlts_data)
                              (Return example_temperature_data)
                              (Return example_d_file) sample_reader))) i =
      Some (put_merged (nth_error merged i) r).
Proof.
  destruct (read_from_d_t_row_labels strptime_two_digit example_d_file
              example_dlts_data example_temperature_data sample_reader
              (snd (read_from_d_t strptime_two_digit
                      (Return example_dlts_data)
                      (Return example_temperature_data)
                      (Return example_d_file) sample_reader)))
    as [dtimes [ttimes [merged [Hd [Ht [Hm [Hlen [_ Hrows]]]]]]]].
  { vm_compute. reflexivity. }
  assert (dtimes = map d_time example_dlts) as ->.
  { assert (Return dtimes = Return (map d_time example_dlts)) as E
        by (rewrite <- Hd; vm_compute; reflexivity).
    injection E as ->. reflexivity. }
  assert (ttimes = map t_time example_temp) as ->.
  { assert (Return ttimes = Return (map t_time example_temp)) as E
        by (rewrite <- Ht; vm_compute; reflexivity).
    injection E as ->. reflexivity. }
  exists merged. split; [exact Hm|]. split; [exact Hlen|].
  destruct Hrows as [Hl [_ Hnth]]; [discriminate|].
  split; [exact Hl | exact Hnth].
Defined.

(** ** When read_from_d_t returns *)

Lemma mapM_nth {A B : Type} (f : A -> outcome B) (l : list A) (res : list B) :
  mapM f l = Return res ->
  forall i a, nth_error l i = Some a ->
    exists b, f a = Return b /\ nth_error res i = Some b.
Proof.
  revert res. induction l as [|x l IH]; intros res H i a Ha.
  - destruct i; discriminate Ha.
  - cbn [mapM] in H. destruct (f x) as [b|e] eqn:Ex; [|discriminate H].
    cbn [obind] in H. destruct (mapM f l) as [bs0|e]; [|discriminate H].
    cbn [obind] in H. injection H as <-. destruct i as [|i].
    + injection Ha as <-. exists b. split; [exact Ex | reflexivity].
    + apply (IH bs0 eq_refl i a Ha).
Qed.

Lemma mapM_total {A B : Type} (f : A -> outcome B) (l : list A) :
  (forall i a, nth_error l i = Some a -> exists b, f a = Return b) ->
  exists res, mapM f l = Return res.
Proof.
  induction l as [|x l IH]; intros H.
  - exists []. reflexivity.
  - destruct (H 0%nat x eq_refl) as [b Hb].
    destruct IH as [res Hres]; [intros i a Ha; apply (H (S i) a Ha)|].
    exists (b :: res). cbn [mapM]. rewrite Hb. cbn [obind]. rewrite Hres.
    reflexivity.
Qed.

Lemma series_add_list_fit (col l : list string) :
  (exists res, series_add_list col l = Return res) <->
  dates_fit (List.length col) l.
Proof.
  unfold series_add_list, dates_fit.
  destruct (Nat.eqb_spec (List.length col) (List.length l)) as [E|E].
  - split; [intros _; left; symmetry; exact E | intros _; eexists; reflexivity].
  - destruct l as [|d [|d' l]].
    + split; [|intros [H|H]; [congruence | discriminate H]].
      intros [res H]. destruct col as [|c [|c' col]]; discriminate H.
    + split; [intros _; right; reflexivity | intros _; eexists; reflexivity].
    + split; [|intros [H|H]; [congruence | discriminate H]].
      intros [res H]. destruct col as [|c [|c' col]]; discriminate H.
Qed.

Lemma nth_error_zip (col l : list string) (i : nat) (c : string) :
  List.length col = List.length l -> nth_error col i = Some c ->
  exists d, nth_error l i = Some d /\
    nth_error (map (fun '(c, d) => (c ++ d)%string) (combine col l)) i
      = Some (c ++ d)%string.
Proof.
  revert l i. induction col as [|x col IH]; intros [|y l] i Hlen Hc;
    try discriminate Hlen; [destruct i; discriminate Hc|].
  destruct i as [|i].
  - injection Hc as <-. exists y. split; reflexivity.
  - apply (IH l i); [injection Hlen as Hlen; exact Hlen | exact Hc].
Qed.

Lemma series_add_list_nth (col l res : list string) :
  series_add_list col l = Return res ->
  forall i c, nth_error col i = Some c ->
    exists d, nth_error l (date_index l i) = Some d /\
              nth_error res i = Some (c ++ d)%string.
Proof.
  unfold series_add_list, date_index. intros H i c Hc.
  destruct (Nat.eqb_spec (List.length col) (List.length l)) as [E|E].
  - injection H as <-.
    destruct (nth_error_zip col l i c E Hc) as [d [Hd Hr]].
    exists d. split; [|exact Hr].
    destruct (Nat.eqb_spec (List.length l) 1) as [E1|_]; [|exact Hd].
    destruct col as [|x [|x' col]]; rewrite E1 in E; try discriminate E.
    destruct i as [|i]; [exact Hd|]. destruct i; discriminate Hc.
  - destruct l as [|d [|d' l]].
    + destruct col as [|x [|x' col]]; discriminate H.
    + injection H as <-. exists d. split; [reflexivity|].
      rewrite nth_error_map, Hc. reflexivity.
    + destruct col as [|x [|x' col]]; discriminate H.
Qed.

Lemma timestamps_returns_iff (to_datetime : string -> option Z)
    (col dates : list string) :
  (exists ts, timestamps to_datetime col dates = Return ts) <->
  dates_fit (List.length col) dates /\ cells_parse to_datetime col dates.
Proof.
  unfold timestamps, to_datetime_series, cells_parse. split.
  - intros [ts H].
    destruct (series_add_list (map (fun c => (c ++ " ")%string) col) dates)
      as [texts|e] eqn:E; [|discriminate H]. cbn [obind] in H.
    split.
    + rewrite <- (length_map (fun c => (c ++ " ")%string) col).
      apply series_add_list_fit. exists texts. exact E.
    + intros i c Hc.
      destruct (series_add_list_nth _ _ _ E i (c ++ " ")%string) as [d [Hd Ht]];
        [rewrite nth_error_map, Hc; reflexivity|].
      destruct (mapM_nth _ _ _ H i _ Ht) as [t [Hp _]].
      rewrite append_assoc in Hp.
      exists d. destruct (to_datetime (c ++ " " ++ d)%string) as [t'|];
        [exists t'; split; [exact Hd | reflexivity] | discriminate Hp].
  - intros [Hfit Hparse].
    rewrite <- (length_map (fun c => (c ++ " ")%string) col) in Hfit.
    apply series_add_list_fit in Hfit. destruct Hfit as [texts E].
    rewrite E. cbn [obind]. apply mapM_total. intros i text Ht.
    assert (exists c, nth_error col i = Some c) as [c Hc].
    { destruct (nth_error col i) as [c|] eqn:Hc; [exists c; reflexivity|].
      apply nth_error_None in Hc. apply series_add_list_length in E.
      rewrite length_map in E.
      assert (nth_error texts i = None) as N by (apply nth_error_None; lia).
      congruence. }
    destruct (Hparse i c Hc) as [d [t [Hd Hp]]].
    destruct (series_add_list_nth _ _ _ E i (c ++ " ")%string) as [d' [Hd' Ht']];
      [rewrite nth_error_map, Hc; reflexivity|].
    assert (d' = d) as -> by congruence.
    assert (text = ((c ++ " ") ++ d)%string) as -> by congruence.
    rewrite append_assoc, Hp. exists t. reflexivity.
Qed.

(** X7: the dates re.findall collects can be added to a time-of-day
    column exactly when there is one date or as many dates as rows; row i is
    then combined with the only date, or with date i; and the column of
    timestamps is produced exactly when, in addition, every combined cell
    parses. *)
Theorem dates_must_fit_the_rows :
  forall (to_datetime : string -> option Z) (col dates : list string),
    ((exists texts, series_add_list (map (fun c => (c ++ " ")%string) col) dates
                    = Return texts) <->
     dates_fit (List.length col) dates) /\
    ((exists ts, timestamps to_datetime col dates = Return ts) <->
     dates_fit (List.length col) dates /\ cells_parse to_datetime col dates) /\
    (forall ts, timestamps to_datetime col dates = Return ts ->
       List.length ts = List.length col /\
       forall i c, nth_error col i = Some c ->
         exists d t, nth_error dates (date_index dates i) = Some d /\
                     to_datetime (c ++ " " ++ d)%string = Some t /\
                     nth_error ts i = Some t).
Proof.
  intros to_datetime col dates. split; [|split].
  - rewrite series_add_list_fit, length_map. reflexivity.
  - apply timestamps_returns_iff.
  - intros ts H. split; [apply (timestamps_length _ _ _ _ H)|].
    intros i c Hc. unfold timestamps, to_datetime_series in H.
    destruct (series_add_list (map (fun c => (c ++ " ")%string) col) dates)
      as [texts|e] eqn:E; [|discriminate H]. cbn [obind] in H.
    destruct (series_add_list_nth _ _ _ E i (c ++ " ")%string) as [d [Hd Ht]];
      [rewrite nth_error_map, Hc; reflexivity|].
    destruct (mapM_nth _ _ _ H i _ Ht) as [t [Hp Hn]].
    rewrite append_assoc in Hp. exists d, t. split; [exact Hd|].
    split; [|exact Hn].
    destruct (to_datetime (c ++ " " ++ d)%string); [congruence | discriminate Hp].
Qed.

(** The two rows of the file read past midnight with its two dates. *)
Lemma dates_must_fit_the_rows_witness :
  List.length [on_2024_01_01 23 59 59; on_2024_01_01 24 0 1] = 2%nat /\
  forall i c, nth_error (map d_time midnight_dlts_data) i = Some c ->
    exists d t, nth_error (re_findall midnight_d_file)
                          (date_index (re_findall midnight_d_file) i) = Some d /\
                strptime_two_digit (c ++ " " ++ d)%string = Some t /\
                nth_error [on_2024_01_01 23 59 59; on_2024_01_01 24 0 1] i = Some t.
Proof.
  destruct (dates_must_fit_the_rows strptime_two_digit
              (map d_time midnight_dlts_data) (re_findall midnight_d_file))
    as [_ [_ H]].
  apply H. vm_compute. reflexivity.
Defined.

Lemma with_times_nonempty {A B : Type} (mk : A -> Z -> B) (rows : list A)
    (times : list Z) :
  List.length times = List.length rows ->
  (with_times mk rows times <> [] <-> rows <> []).
Proof.
  intros H. destruct rows as [|r rows], times as [|t times];
    try discriminate H; unfold with_times; cbn [combine map]; split;
    intros N; first [discriminate | exfalso; apply N; reflexivity].
Qed.

(** X8: read_from_d_t returns normally exactly when its three reads
    return, the dates found in the text fit both streams, every combined
    cell of both streams parses, the temperature stream has a row and no two
    temperature rows get the same timestamp; in every other case it raises
    and the reader is the one it was given. *)
Theorem read_from_d_t_returns_iff :
  forall to_datetime (dlts_read : outcome (list (dlts_row string)))
         (temperature_read : outcome (list (temp_row string)))
         (d_file_read : outcome string) (self : DataReader),
    ((exists self',
         read_from_d_t to_datetime dlts_read temperature_read d_file_read self
           = (Return tt, self')) <->
     exists dlts_data temperature_data d_file,
       dlts_read = Return dlts_data /\
       temperature_read = Return temperature_data /\
       d_file_read = Return d_file /\
       dates_fit (List.length dlts_data) (re_findall d_file) /\
       cells_parse to_datetime (map d_time dlts_data) (re_findall d_file) /\
       dates_fit (List.length temperature_data) (re_findall d_file) /\
       cells_parse to_datetime (map t_time temperature_data) (re_findall d_file) /\
       temperature_data <> [] /\
       exists ttimes,
         timestamps to_datetime (map t_time temperature_data) (re_findall d_file)
           = Return ttimes /\
         is_unique ttimes = true) /\
    (forall e self',
        read_from_d_t to_datetime dlts_read temperature_read d_file_read self
          = (Raise e, self') ->
        self' = self).
Proof.
  intros to_datetime rd rt rx self.
  split; [|intros e self'; apply read_from_d_t_raise].
  split.
  - intros [self' H].
    destruct (read_from_d_t_reads _ _ _ _ _ _ _ H)
      as [dlts [temp [d_file [-> [-> ->]]]]].
    exists dlts, temp, d_file.
    destruct (read_from_d_t_inv _ _ _ _ _ _ _ H)
      as [dtimes [ttimes [merged [Hd [Ht [Hm _]]]]]].
    destruct (proj1 (timestamps_returns_iff to_datetime (map d_time dlts)
                       (re_findall d_file)) (ex_intro _ dtimes Hd)) as [F1 P1].
    destruct (proj1 (timestamps_returns_iff to_datetime (map t_time temp)
                       (re_findall d_file)) (ex_intro _ ttimes Ht)) as [F2 P2].
    rewrite length_map in F1, F2.
    pose proof (timestamps_length _ _ _ _ Ht) as Hlen.
    rewrite length_map in Hlen.
    repeat split; try assumption.
    + apply time_alignment_merge_nonempty in Hm.
      apply (with_times_nonempty _ _ _ Hlen) in Hm. exact Hm.
    + exists ttimes. split; [exact Ht|].
      apply time_alignment_merge_returns in Hm.
      rewrite with_times_times in Hm; [exact Hm | reflexivity | exact Hlen].
  - intros [dlts [temp [d_file [-> [-> [-> [F1 [P1 [_ [_ [Hne [ttimes [Ht Hu]]]]]]]]]]]]].
    destruct (proj2 (timestamps_returns_iff to_datetime (map d_time dlts)
                       (re_findall d_file))) as [dtimes Hd].
    { rewrite length_map. split; assumption. }
    pose proof (timestamps_length _ _ _ _ Ht) as Hlen.
    rewrite length_map in Hlen.
    unfold read_from_d_t. cbv zeta. cbn [obind]. rewrite Hd, Ht. cbn [obind].
    match goal with
    | |- context [time_alignment_merge ?ds ?ts] =>
        destruct (time_alignment_merge_unique ds ts) as [first [n [E _]]]
    end.
    + rewrite with_times_times; [exact Hu | reflexivity | exact Hlen].
    + apply (with_times_nonempty _ _ _ Hlen). exact Hne.
    + rewrite E. eexists. reflexivity.
Qed.

(** The example files: three reads that return, one date, five cells that
    parse, two distinct temperature seconds. *)
Lemma read_from_d_t_returns_iff_witness :
  exists dlts_data temperature_data d_file,
    Return example_dlts_data = Return dlts_data /\
    Return example_temperature_data = Return temperature_data /\
    Return example_d_file = Return d_file /\
    dates_fit (List.length dlts_data) (re_findall d_file) /\
    temperature_data <> [].
Proof.
  destruct (read_from_d_t_returns_iff strptime_two_digit
              (Return example_dlts_data) (Return example_temperature_data)
              (Return example_d_file) init) as [[H _] _].
  destruct H as [dlts [temp [d_file [E1 [E2 [E3 [F1 [_ [_ [_ [Hne _]]]]]]]]]]].
  - eexists. vm_compute. reflexivity.
  - exists dlts, temp, d_file. repeat split; assumption.
Defined.

(** ** What re.findall returns *)

Lemma match_here_length (p : list (ascii -> bool)) (s m : string) :
  match_here p s = Some m -> String.length m = List.length p.
Proof.
  revert s m. induction p as [|cls p IH]; intros s m H; simpl in H.
  - injection H as <-. reflexivity.
  - destruct s as [|a s]; [discriminate H|].
    destruct (cls a); [|discriminate H].
    destruct (match_here p s) as [m'|] eqn:E; [|discriminate H].
    injection H as <-. simpl. f_equal. apply (IH s m' E).
Qed.

Lemma append_length (a b : string) :
  String.length (a ++ b) = (String.length a + String.length b)%nat.
Proof. induction a as [|x a IH]; simpl; [reflexivity | rewrite IH; reflexivity]. Qed.

Lemma findall_from_matches (skip : nat) (s : string) :
  Forall (fun d => is_date d /\ String.length d = 10%nat /\
                   exists pre post, s = (pre ++ d ++ post)%string)
         (findall_from date_pattern skip s) /\
  (10 * List.length (findall_from date_pattern skip s) <= String.length s - skip)%nat.
Proof.
  revert skip. induction s as [|a s IH]; intros skip.
  - split; [constructor | simpl; lia].
  - assert (forall k,
               Forall (fun d => is_date d /\ String.length d = 10%nat /\
                                exists pre post, String a s = (pre ++ d ++ post)%string)
                      (findall_from date_pattern k s)) as Hsub.
    { intros k. destruct (IH k) as [H _]. eapply Forall_impl; [|exact H].
      intros d [Hd [Hl [pre [post ->]]]]. repeat split; try assumption.
      exists (String a pre), post. reflexivity. }
    cbn [findall_from]. destruct skip as [|k].
    + destruct (match_here date_pattern (String a s)) as [m|] eqn:E.
      * pose proof (match_here_length _ _ _ E) as Hl. cbn [date_pattern List.length] in Hl.
        destruct (match_here_sound _ _ _ E) as [rest [Hs Hd]].
        rewrite Hl. cbn [Nat.pred]. split.
        -- constructor; [|apply Hsub]. repeat split; try assumption.
           exists EmptyString, rest. exact Hs.
        -- destruct (IH 9%nat) as [_ Hn].
           assert (String.length (String a s) = (10 + String.length rest)%nat) as Hlen
               by (rewrite Hs at 1; rewrite append_length, Hl; reflexivity).
           cbn [List.length String.length] in *. lia.
      * split; [apply Hsub|]. destruct (IH 0%nat) as [_ Hn].
        cbn [String.length]. lia.
    + split; [apply Hsub|]. destruct (IH k) as [_ Hn].
      cbn [String.length]. lia.
Qed.

Lemma no_date_findall (s : string) : no_date s -> re_findall s = [].
Proof.
  unfold re_findall. induction s as [|a s IH]; intros H; [reflexivity|].
  cbn [findall_from].
  destruct (match_here date_pattern (String a s)) as [m|] eqn:E.
  - destruct (match_here_sound _ _ _ E) as [rest [Hs Hd]].
    exfalso. apply (H EmptyString m rest); assumption.
  - apply IH. intros pre d post Hs. apply (H (String a pre) d post).
    rewrite Hs. reflexivity.
Qed.

(** X9: every text re.findall returns is a date of ten characters (two
    digits, dot, two digits, dot, four digits) that occurs in the content;
    the matches do not overlap, so there are at most a tenth as many as the
    content has characters; and the list is empty exactly when no substring
    of the content is a date. *)
Theorem re_findall_matches :
  forall s : string,
    Forall (fun d => is_date d /\ String.length d = 10%nat /\
                     exists pre post, s = (pre ++ d ++ post)%string)
           (re_findall s) /\
    (10 * List.length (re_findall s) <= String.length s)%nat /\
    (re_findall s = [] <-> no_date s).
Proof.
  intros s. destruct (findall_from_matches 0 s) as [H1 H2].
  split; [exact H1|]. split; [unfold re_findall; lia|].
  split; [apply findall_no_date | apply no_date_findall].
Qed.

(** ** The order of the temperature rows *)

Lemma NoDup_map_eq {A B : Type} (f : A -> B) (l : list A) (a b : A) :
  NoDup (map f l) -> In a l -> In b l -> f a = f b -> a = b.
Proof.
  induction l as [|x l IH]; intros Hnd Ha Hb Hf; [contradiction|].
  cbn [map] in Hnd. inversion Hnd as [|? ? Hx Hl]; subst.
  destruct Ha as [<-|Ha], Hb as [<-|Hb].
  - reflexivity.
  - exfalso. apply Hx. rewrite Hf. apply in_map. exact Hb.
  - exfalso. apply Hx. rewrite <- Hf. apply in_map. exact Ha.
  - apply IH; assumption.
Qed.

Lemma sorted_unique_eq (l1 l2 : list (temp_row Z)) :
  StronglySorted time_le l1 -> StronglySorted time_le l2 ->
  NoDup (map t_time l1) -> NoDup (map t_time l2) ->
  (forall a, In a l1 <-> In a l2) -> l1 = l2.
Proof.
  intros S1. revert l2. induction S1 as [|x1 l1 S1 IH H1];
    intros l2 S2 N1 N2 Hin.
  - destruct l2 as [|x2 l2]; [reflexivity|].
    destruct (proj2 (Hin x2) (or_introl eq_refl)).
  - destruct l2 as [|x2 l2]; [destruct (proj1 (Hin x1) (or_introl eq_refl))|].
    inversion S2 as [|? ? S2' H2]; subst.
    rewrite Forall_forall in H1, H2.
    assert (x1 = x2) as ->.
    { apply (NoDup_map_eq t_time (x1 :: l1)); [exact N1 | left; reflexivity | |].
      - apply Hin. left. reflexivity.
      - assert (t_time x1 <= t_time x2).
        { destruct (proj2 (Hin x2) (or_introl eq_refl)) as [<-|Hx]; [lia|].
          apply (H1 x2 Hx). }
        assert (t_time x2 <= t_time x1).
        { destruct (proj1 (Hin x1) (or_introl eq_refl)) as [<-|Hx]; [lia|].
          apply (H2 x1 Hx). }
        lia. }
    f_equal. cbn [map] in N1, N2.
    inversion N1 as [|? ? Nx1 N1']; inversion N2 as [|? ? Nx2 N2']; subst.
    apply IH; try assumption.
    intros a. split; intros Ha.
    + destruct (proj1 (Hin a) (or_intror Ha)) as [<-|H]; [|exact H].
      exfalso. apply Nx1. apply in_map. exact Ha.
    + destruct (proj2 (Hin a) (or_intror Ha)) as [<-|H]; [|exact H].
      exfalso. apply Nx2. apply in_map. exact Ha.
Qed.

Lemma sort_by_time_permutation (temp temp' : list (temp_row Z)) :
  Permutation temp temp' -> is_unique (map t_time temp) = true ->
  sort_by_time temp = sort_by_time temp'.
Proof.
  intros P Hu.
  assert (forall l, Permutation temp l -> NoDup (map t_time (sort_by_time l))) as N.
  { intros l Pl. apply is_unique_NoDup. rewrite is_unique_sort.
    apply is_unique_NoDup. apply is_unique_NoDup in Hu.
    eapply Permutation_NoDup; [apply Permutation_map; exact Pl | exact Hu]. }
  apply sorted_unique_eq; try apply sort_by_time_sorted.
  - apply N. apply Permutation_refl.
  - apply N. exact P.
  - intros a. rewrite !sort_by_time_In. split; apply Permutation_in;
      [exact P | apply Permutation_sym; exact P].
Qed.

(** X10: the resampled grid and the merged table do not depend on the
    order in which the temperature rows come: the resampler sorts them by
    timestamp, and a stream with two rows in one second raises in any
    order. *)
Theorem merge_ignores_temperature_order :
  forall (dlts_data : list (dlts_row Z)) (temp temp' : list (temp_row Z)),
    Permutation temp temp' ->
    resample_S_ffill temp = resample_S_ffill temp' /\
    time_alignment_merge dlts_data temp = time_alignment_merge dlts_data temp'.
Proof.
  intros dlts temp temp' P.
  assert (resample_S_ffill temp = resample_S_ffill temp') as R.
  { destruct (is_unique (map t_time temp)) eqn:Hu.
    - unfold resample_S_ffill.
      rewrite (sort_by_time_permutation temp temp' P Hu). reflexivity.
    - rewrite (resample_S_ffill_duplicate temp Hu).
      rewrite resample_S_ffill_duplicate; [reflexivity|].
      destruct (is_unique (map t_time temp')) eqn:Hu'; [|reflexivity].
      apply is_unique_NoDup in Hu'.
      assert (NoDup (map t_time temp)) as N.
      { eapply Permutation_NoDup; [|exact Hu'].
        apply Permutation_map, Permutation_sym, P. }
      apply is_unique_NoDup in N. congruence. }
  split; [exact R|]. unfold time_alignment_merge. rewrite R. reflexivity.
Qed.

(** The two temperature samples in the other order. *)
Lemma merge_ignores_temperature_order_witness :
  time_alignment_merge example_dlts example_temp =
  time_alignment_merge example_dlts
    [TempRow (on_2024_01_01 9 0 5) 301; TempRow (on_2024_01_01 9 0 2) 300].
Proof.
  apply (merge_ignores_temperature_order example_dlts example_temp
           [TempRow (on_2024_01_01 9 0 5) 301; TempRow (on_2024_01_01 9 0 2) 300]).
  apply perm_swap.
Defined.

(** ** A signal row at the second of a sample *)

Lemma filled_at_sample (temp : list (temp_row Z)) (a : temp_row Z) :
  is_unique (map t_time temp) = true -> In a temp ->
  filled temp (t_time a) = t_temperature_k a.
Proof.
  intros Hu Ha. apply is_unique_NoDup in Hu.
  destruct (filled_spec temp (t_time a)) as [a' [[Ha' [Hle Hmax]] ->]].
  { exists a. split; [exact Ha | lia]. }
  specialize (Hmax a Ha (Z.le_refl _)).
  f_equal. apply (NoDup_map_eq t_time temp); try assumption. lia.
Qed.

(** X11: a signal row whose timestamp is the second of a temperature
    sample gets exactly that sample's temperature, wherever the row and the
    sample stand in their streams. *)
Theorem merge_at_sample_second :
  forall (dlts_data : list (dlts_row Z)) (temperature_data : list (temp_row Z))
         (merged : list merged_row) (i : nat) (d : dlts_row Z) (a : temp_row Z),
    time_alignment_merge dlts_data temperature_data = Return merged ->
    nth_error dlts_data i = Some d ->
    In a temperature_data ->
    t_time a = d_time d ->
    nth_error merged i =
      Some (Merged (d_time d) (d_frequency_hz d) (d_dlts_v d) (t_temperature_k a)).
Proof.
  intros dlts temp merged i d a H Hd Ha Ht.
  pose proof (time_alignment_merge_returns _ _ _ H) as Hu.
  pose proof (time_alignment_merge_nonempty _ _ _ H) as Hne.
  destruct (time_alignment_merge_unique dlts temp Hu Hne)
    as [first [n [E [_ [Hrange _]]]]].
  rewrite E in H. injection H as <-.
  rewrite nth_error_map, Hd. cbn [option_map]. unfold joined.
  specialize (Hrange a Ha). rewrite Ht in Hrange.
  destruct (Z.leb_spec first (d_time d)); [|lia].
  destruct (Z.ltb_spec (d_time d) (first + Z.of_nat n)); [|lia].
  cbn [andb]. rewrite <- (filled_at_sample temp a Hu Ha), Ht.
  reflexivity.
Qed.

(** A signal row at 09:00:05, the second of the 301 K sample. *)
Lemma merge_at_sample_second_witness :
  exists merged,
    time_alignment_merge [DltsRow (on_2024_01_01 9 0 5) 1000 0.5] example_temp
      = Return merged /\
    nth_error merged 0 = Some (Merged (on_2024_01_01 9 0 5) 1000 0.5 301).
Proof.
  assert (time_alignment_merge [DltsRow (on_2024_01_01 9 0 5) 1000 0.5] example_temp
          = Return [Merged (on_2024_01_01 9 0 5) 1000 0.5 301]) as E
      by (vm_compute; reflexivity).
  eexists. split; [exact E|].
  apply (merge_at_sample_second _ _ _ 0%nat
           (DltsRow (on_2024_01_01 9 0 5) 1000 0.5)
           (TempRow (on_2024_01_01 9 0 5) 301) E).
  - reflexivity.
  - right. left. reflexivity.
  - reflexivity.
Defined.

(** ** The grid *)

Lemma seconds_from_In (first : Z) (n : nat) (g : Z) :
  In g (seconds_from first n) <-> first <= g < first + Z.of_nat n.
Proof.
  revert first. induction n as [|n IH]; intros first.
  - simpl. lia.
  - cbn [seconds_from In]. rewrite IH. lia.
Qed.

Lemma seconds_from_sorted (first : Z) (n : nat) :
  StronglySorted Z.lt (seconds_from first n).
Proof.
  revert first. induction n as [|n IH]; intros first; cbn [seconds_from].
  - constructor.
  - constructor; [apply IH|]. apply Forall_forall. intros g Hg.
    apply seconds_from_In in Hg. lia.
Qed.

Lemma seconds_from_length (first : Z) (n : nat) :
  List.length (seconds_from first n) = n.
Proof.
  revert first. induction n as [|n IH]; intros first; cbn [seconds_from List.length];
    [reflexivity | rewrite IH; reflexivity].
Qed.

Lemma resample_S_ffill_unique (temp : list (temp_row Z)) (x : temp_row Z) :
  is_unique (map t_time temp) = true -> In x temp ->
  exists lo hi,
    In lo temp /\ In hi temp /\
    (forall a, In a temp -> t_time lo <= t_time a <= t_time hi) /\
    resample_S_ffill temp =
      Return (map (fun g => TempRow g (filled temp g))
                  (date_range (t_time lo) (t_time hi))).
Proof.
  intros Hu Hx. unfold resample_S_ffill, filled.
  pose proof (is_unique_sort temp) as Hs. rewrite Hu in Hs.
  pose proof (sort_by_time_sorted temp) as Hsorted.
  pose proof (fun a => sort_by_time_In a temp) as HIn.
  destruct (sort_by_time temp) as [|a l] eqn:E.
  - destruct (proj2 (HIn x) Hx).
  - exists a, (List.last (a :: l) a).
    split; [apply HIn; left; reflexivity|].
    split; [apply HIn, last_In|]. split.
    + intros y Hy. apply HIn in Hy. split.
      * destruct Hy as [<-|Hy]; [lia|].
        inversion Hsorted as [|? ? _ Hall]; subst.
        rewrite Forall_forall in Hall. apply (Hall y Hy).
      * apply sorted_last_max; assumption.
    + unfold reindex_ffill. rewrite Hs. reflexivity.
Qed.

(** X12: when the resampler returns on a non-empty temperature stream,
    the grid has one row for every second from the earliest to the latest
    temperature timestamp, in increasing order, last - first + 1 rows in all
    however few samples there are, and every temperature sample is a row of
    the grid with its own value. *)
Theorem resample_grid_shape :
  forall (temperature_data grid : list (temp_row Z)) (lo hi : temp_row Z),
    resample_S_ffill temperature_data = Return grid ->
    In lo temperature_data -> In hi temperature_data ->
    (forall a, In a temperature_data -> t_time lo <= t_time a <= t_time hi) ->
    map t_time grid = date_range (t_time lo) (t_time hi) /\
    List.length grid = Z.to_nat (t_time hi - t_time lo + 1) /\
    StronglySorted Z.lt (map t_time grid) /\
    (forall g, In g (map t_time grid) <-> t_time lo <= g <= t_time hi) /\
    (forall a, In a temperature_data -> In a grid).
Proof.
  intros temp grid lo hi H Hlo Hhi Hbounds.
  assert (is_unique (map t_time temp) = true) as Hu.
  { destruct (is_unique (map t_time temp)) eqn:E; [reflexivity|].
    rewrite (resample_S_ffill_duplicate temp E) in H. discriminate H. }
  destruct (resample_S_ffill_unique temp lo Hu Hlo)
    as [lo' [hi' [Hlo' [Hhi' [Hb' E]]]]].
  assert (t_time lo' = t_time lo) as El
      by (pose proof (Hb' lo Hlo); pose proof (Hbounds lo' Hlo'); lia).
  assert (t_time hi' = t_time hi) as Eh
      by (pose proof (Hb' hi Hhi); pose proof (Hbounds hi' Hhi'); lia).
  rewrite El, Eh in E. rewrite E in H. injection H as <-.
  assert (map t_time
            (map (fun g => TempRow g (filled temp g))
                 (date_range (t_time lo) (t_time hi))) =
          date_range (t_time lo) (t_time hi)) as Et.
  { rewrite map_map. cbn [t_time]. apply map_id. }
  pose proof (Hbounds lo Hlo) as Hlh.
  split; [exact Et|]. split; [|split; [|split]].
  - rewrite length_map. unfold date_range. apply seconds_from_length.
  - rewrite Et. apply seconds_from_sorted.
  - intros g. rewrite Et. unfold date_range. rewrite seconds_from_In. lia.
  - intros a Ha. apply in_map_iff. exists (t_time a). split.
    + rewrite (filled_at_sample temp a Hu Ha). destruct a. reflexivity.
    + unfold date_range. apply seconds_from_In.
      specialize (Hbounds a Ha). lia.
Qed.

(** Two samples three seconds apart give a grid of four rows. *)
Lemma resample_grid_shape_witness :
  exists grid,
    resample_S_ffill example_temp = Return grid /\
    List.length grid =
      Z.to_nat (on_2024_01_01 9 0 5 - on_2024_01_01 9 0 2 + 1).
Proof.
  assert (resample_S_ffill example_temp =
          Return [TempRow (on_2024_01_01 9 0 2) 300; TempRow (on_2024_01_01 9 0 3) 300;
                  TempRow (on_2024_01_01 9 0 4) 300; TempRow (on_2024_01_01 9 0 5) 301])
    as E by (vm_compute; reflexivity).
  eexists. split; [exact E|].
  apply (resample_grid_shape example_temp _
           (TempRow (on_2024_01_01 9 0 2) 300) (TempRow (on_2024_01_01 9 0 5) 301) E).
  - left. reflexivity.
  - right. left. reflexivity.
  - intros a [<-|[<-|[]]]; vm_compute; split; discriminate.
Defined.

(** ** Invariants of the reader *)

Lemma in_value_set_nan (set : list float) : in_value_set set nan = true.
Proof. reflexivity. Qed.

Lemma accepted_value_in_set (v : pyfloat) (allowed : list literal)
    (set : list float) :
  map float_of (map lit_val allowed) = set ++ [nan] ->
  py_in v (map lit_val allowed) = true ->
  in_value_set set (float_of v) = true.
Proof.
  intros Hset Hin. apply py_in_value_set in Hin.
  rewrite Hset, in_value_set_nan_last in Hin. exact Hin.
Qed.

Lemma Forall_set_column (P : row -> Prop) (upd : row -> row) (self : DataReader) :
  (forall r, P r -> P (upd r)) -> Forall P (data self) ->
  Forall P (data (set_column upd self)).
Proof.
  intros H F. unfold set_column. cbn [data]. rewrite Forall_forall in *.
  intros r Hr. apply in_map_iff in Hr. destruct Hr as [r0 [<- Hr0]].
  apply H, F, Hr0.
Qed.

Lemma Forall_setitem_columns (P : row -> Prop) (merged : list merged_row)
    (rows : list row) :
  (forall m r, P r -> P (put_merged m r)) -> P nan_row -> Forall P rows ->
  Forall P (setitem_columns merged rows).
Proof.
  intros H Hnan F. unfold setitem_columns. destruct rows as [|r0 rows].
  - apply Forall_forall. intros r Hr. apply in_map_iff in Hr.
    destruct Hr as [m [<- _]]. apply H, Hnan.
  - remember (r0 :: rows) as l eqn:El. clear El. rewrite Forall_forall in *.
    intros r Hr. apply in_map_iff in Hr. destruct Hr as [[i x] [<- Hx]].
    apply in_combine_r in Hx. apply H, F, Hx.
Qed.

Lemma eqb_zero_other (x c : float) :
  PrimFloat.eqb x 0 = true -> PrimFloat.eqb c 0 = false ->
  PrimFloat.eqb x c = false.
Proof.
  rewrite !eqb_spec. change (Prim2SF 0) with (S754_zero false).
  unfold SFeqb, SFcompare.
  destruct (Prim2SF x) as [[]|[]| |[] m e];
    destruct (Prim2SF c) as [[]|[]| |[] m' e'];
    intros H1 H2; try discriminate H1; try discriminate H2; reflexivity.
Qed.

Lemma value_set_nonzero (set : list float) (x : float) :
  in_value_set set x = true ->
  Forall (fun c => PrimFloat.eqb c 0 = false) set ->
  PrimFloat.eqb x 0 = false.
Proof.
  intros Hin Hset. destruct (PrimFloat.eqb x 0) eqn:E; [|reflexivity].
  unfold in_value_set in Hin. apply orb_true_iff in Hin.
  destruct Hin as [N|Hin].
  - apply is_nan_eq in N. subst x. discriminate E.
  - apply existsb_exists in Hin. destruct Hin as [c [Hc Hxc]].
    rewrite Forall_forall in Hset.
    rewrite (eqb_zero_other x c E (Hset c Hc)) in Hxc. discriminate Hxc.
Qed.

(** X13: in every reader reached from DataReader() by read_from_d_t, the
    setters and compute_dlts_pf, returning or raising, each row holds in bs,
    ls and integral_time a value of the allowed set of that column (NaN
    included), so compute_dlts_pf never meets a bs or ls of zero. *)
Theorem reachable_categorical_ok :
  forall self : DataReader,
    reachable self ->
    Forall categorical_ok (data self) /\
    Forall (fun r => PrimFloat.eqb (bs r) 0 = false /\ PrimFloat.eqb (ls r) 0 = false)
           (data self).
Proof.
  assert (forall self, reachable self -> Forall categorical_ok (data self)) as Inv.
  { induction 1 as [|c self Hreach IH].
    - constructor.
    - destruct c; cbn [run].
      + destruct (read_from_d_t to_datetime dlts_read temperature_read d_file_read self)
          as [[[]|e] self'] eqn:E; cbn [snd].
        * destruct (read_from_d_t_reads _ _ _ _ _ _ _ E) as [dl [tp [tx [-> [-> ->]]]]].
          destruct (read_from_d_t_inv _ _ _ _ _ _ _ E) as [? [? [merged [_ [_ [_ ->]]]]]].
          cbn [data]. apply Forall_setitem_columns; [| |exact IH].
          -- intros [m|] r Hr; exact Hr.
          -- repeat split.
        * rewrite (read_from_d_t_raise _ _ _ _ _ _ _ E). exact IH.
      + apply Forall_set_column; [|exact IH]. intros r Hr. exact Hr.
      + destruct (set_bs_cases v self) as [[Hin ->]|[_ ->]]; [|exact IH].
        apply Forall_set_column; [|exact IH]. intros r [_ [Hl Hi]].
        split; [|split; assumption]. cbn [with_bs bs].
        apply (accepted_value_in_set v bs_allowed_values
                 [1; 10; 100; 1000]%float eq_refl Hin).
      + destruct (set_ls_cases v self) as [[Hin ->]|[_ ->]]; [|exact IH].
        apply Forall_set_column; [|exact IH]. intros r [Hb [_ Hi]].
        split; [exact Hb|]. split; [|exact Hi]. cbn [with_ls ls].
        apply (accepted_value_in_set v ls_allowed_values
                 [1; 2; 5; 10; 20; 50; 100; 200; 500; 1000]%float eq_refl Hin).
      + apply Forall_set_column; [|exact IH]. intros r Hr. exact Hr.
      + apply Forall_set_column; [|exact IH]. intros r Hr. exact Hr.
      + apply Forall_set_column; [|exact IH]. intros r Hr. exact Hr.
      + apply Forall_set_column; [|exact IH]. intros r Hr. exact Hr.
      + destruct (set_integral_time_cases v self) as [[Hin ->]|[_ ->]]; [|exact IH].
        apply Forall_set_column; [|exact IH]. intros r [Hb [Hl _]].
        split; [exact Hb|]. split; [exact Hl|]. cbn [with_integral_time integral_time].
        apply (accepted_value_in_set v integral_time_allowed_values
                 [0.3; 1; 3; 10; 30]%float eq_refl Hin).
      + cbn [compute_dlts_pf snd data]. rewrite Forall_forall in *.
        intros r Hr. apply in_map_iff in Hr. destruct Hr as [r0 [<- Hr0]].
        apply (IH r0 Hr0). }
  intros self Hreach. split; [apply Inv; exact Hreach|].
  eapply Forall_impl; [|apply Inv; exact Hreach].
  intros r [Hb [Hl _]]. split.
  - apply (value_set_nonzero _ _ Hb). repeat constructor.
  - apply (value_set_nonzero _ _ Hl). repeat constructor.
Qed.

Lemma example_session_reachable : reachable example_session.
Proof. unfold example_session. repeat apply reachable_call. apply reachable_init. Qed.

(** The session of three rows. *)
Lemma reachable_categorical_ok_witness :
  List.length (data example_session) = 3%nat /\
  Forall categorical_ok (data example_session).
Proof.
  split; [vm_compute; reflexivity|].
  apply (reachable_categorical_ok example_session).
  apply example_session_reachable.
Defined.

Lemma reachable_calibration_uniform_witness :
  calibration_uniform (data example_session).
Proof.
  apply (reachable_calibration_uniform example_session).
  apply example_session_reachable.
Defined.

(** ** Saving and loading *)

Lemma mapM_return {A : Type} (f : A -> outcome A) (l : list A) :
  (forall a, f a = Return a) -> mapM f l = Return l.
Proof.
  intros Hf. induction l as [|a l IH]; [reflexivity|].
  cbn [mapM]. rewrite Hf. cbn [obind]. rewrite IH. reflexivity.
Qed.

Lemma digit_is_digit (n : Z) : is_digit (digit n) = true.
Proof.
  unfold digit.
  assert (H : 0 <= n mod 10 < 10) by (apply Z.mod_pos_bound; lia).
  assert (C : n mod 10 = 0 \/ n mod 10 = 1 \/ n mod 10 = 2 \/ n mod 10 = 3 \/
              n mod 10 = 4 \/ n mod 10 = 5 \/ n mod 10 = 6 \/ n mod 10 = 7 \/
              n mod 10 = 8 \/ n mod 10 = 9) by lia.
  repeat (destruct C as [C|C]; [rewrite C; reflexivity|]).
  rewrite C. reflexivity.
Qed.

Lemma format_date_shape (t : Z) :
  exists a b c d rest,
    format_date t = String a (String b (String c (String d (String "-" rest)))) /\
    is_digit d = true.
Proof.
  unfold format_date. destruct (civil_from_days (t / 86400)) as [[y m] d].
  eexists _, _, _, _, _. split; [reflexivity|]. apply digit_is_digit.
Qed.

Lemma format_timestamp_digit_then_minus (b : bool) (t : Z) :
  digit_then_minus (format_timestamp b t) = true.
Proof.
  destruct (format_date_shape t) as [a1 [a2 [a3 [a4 [rest [E D]]]]]].
  unfold format_timestamp. destruct b; rewrite E; cbn [append digit_then_minus];
    rewrite D; cbn; repeat rewrite orb_true_r; reflexivity.
Qed.

Lemma is_na_no_digit_then_minus (s : string) :
  digit_then_minus s = true -> is_na s = false.
Proof.
  intros H. destruct (is_na s) eqn:E; [|reflexivity].
  unfold is_na in E. apply existsb_exists in E. destruct E as [x [Hin Hx]].
  apply String.eqb_eq in Hx. subst x.
  cbn [na_values In] in Hin.
  repeat (destruct Hin as [Hin|Hin]; [subst s; discriminate H|]).
  destruct Hin.
Qed.

Lemma parse_bool_no_digit_then_minus (s : string) :
  digit_then_minus s = true -> parse_bool s = None.
Proof.
  intros H. unfold parse_bool.
  destruct (existsb (String.eqb s) ["True"; "TRUE"; "true"]%string) eqn:E.
  { apply existsb_exists in E. destruct E as [x [Hin Hx]].
    apply String.eqb_eq in Hx. subst x. cbn [In] in Hin.
    repeat (destruct Hin as [Hin|Hin]; [subst s; discriminate H|]).
    destruct Hin. }
  destruct (existsb (String.eqb s) ["False"; "FALSE"; "false"]%string) eqn:E'.
  { apply existsb_exists in E'. destruct E' as [x [Hin Hx]].
    apply String.eqb_eq in Hx. subst x. cbn [In] in Hin.
    repeat (destruct Hin as [Hin|Hin]; [subst s; discriminate H|]).
    destruct Hin. }
  reflexivity.
Qed.

Lemma all_digits_no_minus (s : string) :
  all_digits s = true -> digit_then_minus s = false.
Proof.
  induction s as [|a s IH]; [reflexivity|].
  cbn [all_digits]. intros H. apply andb_true_iff in H. destruct H as [Ha Hs].
  cbn [digit_then_minus]. destruct s as [|b s']; [reflexivity|].
  rewrite (IH Hs). rewrite orb_false_r.
  cbn [all_digits] in Hs. apply andb_true_iff in Hs. destruct Hs as [Hb _].
  destruct (Ascii.eqb b "-") eqn:E; [|apply andb_false_r].
  apply Ascii.eqb_eq in E. subst b. discriminate Hb.
Qed.

Lemma plain_number_numeral (s : string) (f : float) :
  plain_number s = Some f -> digit_then_minus s = false.
Proof.
  unfold plain_number. destruct s as [|a s]; [discriminate|].
  destruct (all_digits (String a s)) eqn:E; [|discriminate].
  intros _. apply all_digits_no_minus. exact E.
Qed.

Lemma chunksize_pos (columns : nat) : (1 <= chunksize columns)%nat.
Proof.
  unfold chunksize.
  generalize (100000 / Z.max 1 (Z.of_nat columns)). intros q. lia.
Qed.

Lemma Forall2_nth_error {A B : Type} (R : A -> B -> Prop) (l : list A)
    (l' : list B) (i : nat) (x : A) :
  Forall2 R l l' -> nth_error l i = Some x ->
  exists y, nth_error l' i = Some y /\ R x y.
Proof.
  intros H. revert i. induction H as [|a b l l' Hab H IH]; intros i Hx.
  - destruct i; discriminate Hx.
  - destruct i as [|i]; cbn [nth_error] in *.
    + injection Hx as <-. exists b. split; [reflexivity | exact Hab].
    + apply IH. exact Hx.
Qed.

Section SaveLoadFacts.

Variable float_repr : string -> float -> string.
Variable parse_number : string -> option float.

(** No numeral holds a digit directly followed by a minus sign. *)
Hypothesis numerals :
  forall s f, parse_number s = Some f -> digit_then_minus s = false.

Lemma infer_length (fields : list string) :
  List.length (infer parse_number fields) = List.length fields.
Proof.
  unfold infer.
  destruct (forallb _ (filter _ fields));
    [|destruct (forallb _ fields)]; apply length_map.
Qed.

Lemma infer_na (fields : list string) (i : nat) (s : string) :
  nth_error fields i = Some s -> is_na s = true ->
  nth_error (infer parse_number fields) i = Some (Float nan).
Proof.
  intros Hi Hs. unfold infer.
  destruct (forallb _ (filter _ fields));
    [|destruct (forallb _ fields)];
    rewrite nth_error_map, Hi; cbn [option_map]; rewrite Hs; reflexivity.
Qed.

Lemma infer_text (fields : list string) (s : string) :
  In s fields -> digit_then_minus s = true ->
  infer parse_number fields
  = map (fun s => if is_na s then Float nan else Str s) fields.
Proof.
  intros Hin Hs. unfold infer.
  destruct (forallb (fun s0 => is_some (parse_number s0))
                    (filter (fun s0 => negb (is_na s0)) fields)) eqn:E.
  { exfalso. rewrite forallb_forall in E.
    assert (Hf : In s (filter (fun s0 => negb (is_na s0)) fields)).
    { apply filter_In. split; [exact Hin|].
      rewrite (is_na_no_digit_then_minus s Hs). reflexivity. }
    specialize (E s Hf). destruct (parse_number s) as [f|] eqn:P; [|discriminate E].
    rewrite (numerals s f P) in Hs. discriminate Hs. }
  destruct (forallb (fun s0 => is_some (parse_bool s0)) fields) eqn:E'.
  { exfalso. rewrite forallb_forall in E'. specialize (E' s Hin).
    rewrite (parse_bool_no_digit_then_minus s Hs) in E'. discriminate E'. }
  reflexivity.
Qed.

Lemma format_missing (name : string) (b : bool) (c : cell) :
  missing c = true -> is_na (format_cell float_repr name b c) = true.
Proof.
  destruct c as [t| |f|v|s]; cbn [missing format_cell]; intros H;
    try discriminate H; try reflexivity.
  rewrite H. reflexivity.
Qed.

(** Every cell of a column is written, in order, each as a date or with
    its time of day as its chunk has it. *)
Lemma format_column_cells (name : string) (size : nat) (cells : list cell) :
  (1 <= size)%nat ->
  Forall2 (fun x s => exists b, s = format_cell float_repr name b x)
          cells (format_column float_repr name size cells).
Proof.
  intros Hsize. unfold format_column.
  assert (G : forall fuel l,
             (List.length l <= fuel)%nat ->
             Forall2 (fun x s => exists b, s = format_cell float_repr name b x) l
               (flat_map (fun chunk =>
                            map (format_cell float_repr name (dates_only chunk)) chunk)
                         (chunks fuel size l))).
  { induction fuel as [|fuel IH]; intros l Hl.
    - destruct l; [constructor | cbn [List.length] in Hl; lia].
    - destruct l as [|x l']; [constructor|].
      cbn [chunks flat_map].
      assert (H : Forall2 (fun x s => exists b, s = format_cell float_repr name b x)
                    (firstn size (x :: l') ++ skipn size (x :: l'))
                    (map (format_cell float_repr name
                            (dates_only (firstn size (x :: l'))))
                         (firstn size (x :: l')) ++
                     flat_map (fun chunk =>
                                 map (format_cell float_repr name (dates_only chunk))
                                     chunk)
                              (chunks fuel size (skipn size (x :: l'))))).
      { apply Forall2_app.
        - generalize (dates_only (firstn size (x :: l'))) as b.
          intros b. induction (firstn size (x :: l')) as [|y ys IHy];
            cbn [map]; constructor; [exists b; reflexivity | exact IHy].
        - apply IH. rewrite length_skipn. cbn [List.length] in *. lia. }
      rewrite firstn_skipn in H. exact H. }
  apply G. lia.
Qed.

(** A column that fits in one chunk is formatted as a whole. *)
Lemma format_column_one_chunk (name : string) (size : nat) (cells : list cell) :
  (1 <= size)%nat -> (List.length cells <= size)%nat ->
  format_column float_repr name size cells
  = map (format_cell float_repr name (dates_only cells)) cells.
Proof.
  intros Hsize Hlen. unfold format_column.
  destruct cells as [|x l]; [reflexivity|].
  cbn [List.length chunks].
  rewrite (firstn_all2 (n := size) (x :: l)) by exact Hlen.
  rewrite (skipn_all2 (n := size) (x :: l)) by exact Hlen.
  cbn [flat_map]. destruct (List.length l); cbn [chunks flat_map];
    apply app_nil_r.
Qed.

Lemma format_column_nth (name : string) (size : nat) (cells : list cell)
    (i : nat) (x : cell) :
  (1 <= size)%nat -> nth_error cells i = Some x ->
  exists b,
    nth_error (format_column float_repr name size cells) i
    = Some (format_cell float_repr name b x).
Proof.
  intros Hsize Hx.
  destruct (Forall2_nth_error _ _ _ i x (format_column_cells name size cells Hsize) Hx)
    as [s [Hs [b ->]]].
  exists b. exact Hs.
Qed.

Lemma format_column_length (name : string) (size : nat) (cells : list cell) :
  (1 <= size)%nat ->
  List.length (format_column float_repr name size cells) = List.length cells.
Proof.
  intros Hsize. symmetry.
  apply (Forall2_length (format_column_cells name size cells Hsize)).
Qed.

Lemma reread_cell_missing (name : string) (size : nat) (cells : list cell)
    (i : nat) (x : cell) :
  (1 <= size)%nat -> nth_error cells i = Some x -> missing x = true ->
  nth_error (infer parse_number (format_column float_repr name size cells)) i
  = Some (Float nan).
Proof.
  intros Hsize Hx Hm.
  destruct (format_column_nth name size cells i x Hsize Hx) as [b Hb].
  apply (infer_na _ i _ Hb). apply format_missing. exact Hm.
Qed.

Lemma reread_cell_timestamp (name : string) (size : nat) (cells : list cell)
    (i : nat) (t : Z) :
  (1 <= size)%nat -> nth_error cells i = Some (Timestamp t) ->
  exists b,
    nth_error (infer parse_number (format_column float_repr name size cells)) i
    = Some (Str (format_timestamp b t)).
Proof.
  intros Hsize Hi.
  destruct (format_column_nth name size cells i _ Hsize Hi) as [b Hb].
  exists b. cbn [format_cell] in Hb.
  rewrite (infer_text _ _ (nth_error_In _ _ Hb)
             (format_timestamp_digit_then_minus b t)).
  rewrite nth_error_map, Hb. cbn [option_map].
  rewrite (is_na_no_digit_then_minus _ (format_timestamp_digit_then_minus b t)).
  reflexivity.
Qed.

Lemma reread_names (fr : frame) :
  map col_name (reread float_repr parse_number fr) = map col_name fr.
Proof. unfold reread. rewrite map_map. reflexivity. Qed.

Lemma reread_missing (fr : frame) (j i : nat) (c c' : column) (x : cell) :
  nth_error fr j = Some c ->
  nth_error (reread float_repr parse_number fr) j = Some c' ->
  nth_error (col_cells c) i = Some x -> missing x = true ->
  nth_error (col_cells c') i = Some (Float nan).
Proof.
  intros Hc Hc' Hx Hm. unfold reread in Hc'.
  rewrite nth_error_map, Hc in Hc'. cbn [option_map] in Hc'.
  injection Hc' as <-. cbn [col_cells].
  apply (reread_cell_missing _ _ _ i x (chunksize_pos _) Hx Hm).
Qed.

End SaveLoadFacts.

Lemma write_files_same (fs : file_system) (path : string) (f : file) :
  files (write fs path f) path = Some f.
Proof. cbn [write files]. rewrite String.eqb_refl. reflexivity. Qed.

Lemma read_back_csv (float_repr : string -> float -> string)
    (parse_number : string -> option float)
    (recode : string -> string -> outcome string)
    (self : DataReader) (fname : string) (fs : file_system) :
  (forall s, recode "utf-8"%string s = Return s) ->
  can_write fs fname = true ->
  to_csv float_repr fname self fs
  = (Return tt, write fs fname (CsvFile (csv_of float_repr (frame_of (data self))))) /\
  read_from_csv parse_number recode fname None
    (snd (to_csv float_repr fname self fs))
  = Return (reread float_repr parse_number (frame_of (data self))).
Proof.
  intros Hutf Hw. unfold to_csv. rewrite Hw. split; [reflexivity|].
  cbn [snd read_from_csv]. unfold pd_read_csv. rewrite write_files_same.
  remember (frame_of (data self)) as fr eqn:Efr.
  assert (Hne : csv_of float_repr fr <> []) by (subst fr; discriminate).
  destruct (csv_of float_repr fr) as [|c0 rest] eqn:Ecsv; [contradiction|].
  rewrite <- Ecsv. clear Ecsv Hne c0 rest.
  clear Efr. unfold csv_of, reread.
  generalize (chunksize (List.length fr)) as size. intros size.
  induction fr as [|c fr IH]; [reflexivity|].
  cbn [map mapM]. unfold read_column at 1. cbn [fst snd].
  rewrite Hutf. cbn [obind].
  rewrite (mapM_return (recode "utf-8"%string) _ Hutf). cbn [obind].
  rewrite IH. reflexivity.
Qed.

Lemma lookup_put_same (k : string) (fr : frame) (datasets : list (string * frame)) :
  lookup k (put k fr datasets) = Some fr.
Proof. cbn [put lookup]. rewrite String.eqb_refl. reflexivity. Qed.

Lemma filter_none_other (k : string) (datasets : list (string * frame)) :
  lookup k datasets = None ->
  filter (fun '(k', _) => negb (String.eqb k' k)) datasets = datasets.
Proof.
  induction datasets as [|[k' fr'] rest IH]; [reflexivity|].
  cbn [lookup filter]. destruct (String.eqb k' k); [discriminate|].
  intros H. cbn [negb]. rewrite (IH H). reflexivity.
Qed.

Lemma filter_keeps_other (k k0 : string) (fr : frame)
    (datasets : list (string * frame)) :
  lookup k datasets = Some fr -> k <> k0 ->
  filter (fun '(k', _) => negb (String.eqb k' k0)) datasets <> [].
Proof.
  induction datasets as [|[k' fr'] rest IH]; [discriminate|].
  cbn [lookup filter]. destruct (String.eqb k' k) eqn:E.
  - apply String.eqb_eq in E. subst k'. intros _ Hk.
    destruct (String.eqb k k0) eqn:E0; [|discriminate].
    apply String.eqb_eq in E0. contradiction.
  - intros H Hk. destruct (negb (String.eqb k' k0)); [discriminate|].
    apply IH; assumption.
Qed.

Lemma frame_of_length (rows : list row) :
  Forall (fun c => List.length (col_cells c) = List.length rows) (frame_of rows).
Proof. unfold frame_of. repeat constructor; cbn [col_cells]; apply length_map. Qed.



